(** * KIMEP classroom dashboard: interval parser and schedule normaliser

    A shallow embedding of [src/kimep_dashboard.py]: the helper
    [to_minutes], the parser [parse_interval_smart] and the table pass
    [preprocess_data], together with the Python string primitives they
    call ([str.replace], [str.split], [str.upper], [in], [int]).

    Modelling conventions.
    - A Python [str] is a [string] holding the UTF-8 bytes of the text.
      Substring search, [split] and [replace] act on bytes exactly as they
      act on code points.  [str.upper] and [int] are modelled on ASCII:
      bytes above 127 are left alone by [upper] and refused by [int].
    - A Python [int] is a [Z].
    - An exception is a value [Raise e] of the result type [res]; a
      [try ... except:] is a match on it.
    - A data frame is its list of column labels and its list of rows; a
      row maps column labels to cells.  [Series.apply] is a map over the
      rows and boolean indexing is a filter. *)

From stdpp Require Import base strings gmap list pretty.
From Stdlib Require Import ZArith Ascii.

Local Open Scope Z_scope.

(** ** Exceptions *)

Inductive exn : Type :=
  | ValueError
  | TypeError
  | KeyError (k : string).

Inductive res (A : Type) : Type :=
  | Ret (a : A)
  | Raise (e : exn).
Arguments Ret {A} a.
Arguments Raise {A} e.

Global Instance res_ret : MRet res := @Ret.
Global Instance res_bind : MBind res := λ A B f c,
  match c with
  | Ret a => f a
  | Raise e => Raise e
  end.

(** ** Python string primitives *)

Module Py.

Definition chr (n : nat) : ascii := ascii_of_nat n.
Definition ord (c : ascii) : nat := nat_of_ascii c.

Definition between (lo hi : nat) (c : ascii) : bool :=
  (lo <=? ord c)%nat && (ord c <=? hi)%nat.

Definition is_lower (c : ascii) : bool := between 97 122 c.
Definition is_digit (c : ascii) : bool := between 48 57 c.
(** The ASCII white space [int] skips: tab, line feed, vertical tab,
    form feed, carriage return and space. *)
Definition is_space (c : ascii) : bool := between 9 13 c || (ord c =? 32)%nat.

Definition upper_char (c : ascii) : ascii :=
  if is_lower c then chr (ord c - 32) else c.

(** [s.upper()] *)
Fixpoint upper (s : string) : string :=
  match s with
  | EmptyString => EmptyString
  | String c s' => String (upper_char c) (upper s')
  end.

(** [s.startswith(p)] *)
Fixpoint startswith (p s : string) : bool :=
  match p, s with
  | EmptyString, _ => true
  | String _ _, EmptyString => false
  | String a p', String b s' => Ascii.eqb a b && startswith p' s'
  end.

(** [sub in s] *)
Fixpoint contains (sub s : string) : bool :=
  startswith sub s ||
  match s with
  | EmptyString => false
  | String _ s' => contains sub s'
  end.

(** [s.replace(old, new)] for a non-empty [old]: occurrences are
    replaced from the left and do not overlap.  [skip] counts the
    characters of a matched occurrence that are still to be dropped. *)
Fixpoint replace_from (old new : string) (skip : nat) (s : string) : string :=
  match s with
  | EmptyString => EmptyString
  | String c s' =>
      match skip with
      | S k => replace_from old new k s'
      | O =>
          if startswith old s
          then new +:+ replace_from old new (String.length old - 1) s'
          else String c (replace_from old new 0 s')
      end
  end.

Definition replace (old new s : string) : string := replace_from old new 0 s.

(** [s.split(sep)] ([maxsplit = None]) and [s.split(sep, n)]
    ([maxsplit = Some n]) for a one-character separator. *)
Fixpoint split (sep : ascii) (maxsplit : option nat) (s : string) : list string :=
  match s with
  | EmptyString => [EmptyString]
  | String c s' =>
      if Ascii.eqb c sep && negb (bool_decide (maxsplit = Some O))
      then EmptyString :: split sep (pred <$> maxsplit) s'
      else match split sep maxsplit s' with
           | hd :: tl => String c hd :: tl
           | [] => [String c EmptyString]
           end
  end.

(** Unpacking [a, b = parts]. *)
Definition unpack2 (parts : list string) : res (string * string) :=
  match parts with
  | [a; b] => Ret (a, b)
  | _ => Raise ValueError
  end.

Fixpoint lstrip (s : string) : string :=
  match s with
  | String c s' => if is_space c then lstrip s' else s
  | EmptyString => EmptyString
  end.

Fixpoint rstrip (s : string) : string :=
  match s with
  | EmptyString => EmptyString
  | String c s' =>
      match rstrip s' with
      | EmptyString => if is_space c then EmptyString else String c EmptyString
      | r => String c r
      end
  end.

Definition digit_val (c : ascii) : Z := Z.of_nat (ord c - 48).

(** The digits of a decimal literal after its first digit: single
    underscores may separate digits, and the literal ends in a digit. *)
Fixpoint digits (acc : Z) (after_underscore : bool) (s : string) : option Z :=
  match s with
  | EmptyString => if after_underscore then None else Some acc
  | String c s' =>
      if is_digit c then digits (acc * 10 + digit_val c) false s'
      else if Ascii.eqb c "_" && negb after_underscore then digits acc true s'
      else None
  end.

Definition unsigned (s : string) : option Z :=
  match s with
  | String c s' => if is_digit c then digits (digit_val c) false s' else None
  | EmptyString => None
  end.

(** [int(s)] in base 10: surrounding white space, an optional sign, and
    a decimal literal; anything else raises [ValueError]. *)
Definition int (s : string) : res Z :=
  let body := rstrip (lstrip s) in
  let parsed :=
    match body with
    | String c r =>
        if Ascii.eqb c "-" then Z.opp <$> unsigned r
        else if Ascii.eqb c "+" then unsigned r
        else unsigned body
    | EmptyString => None
    end in
  match parsed with
  | Some z => Ret z
  | None => Raise ValueError
  end.

End Py.

(** ** Values *)

(** The Python values a cell or an argument can hold. *)
Inductive value : Type :=
  | VStr (s : string)
  | VInt (z : Z)
  | VBool (b : bool)
  | VNone.

Global Instance value_eq_dec : EqDecision value.
Proof. solve_decision. Defined.

(** [str(v)], as [astype(str)] applies it to a cell. *)
Definition str (v : value) : string :=
  match v with
  | VStr s => s
  | VInt z => pretty z
  | VBool true => "True"
  | VBool false => "False"
  | VNone => "None"
  end.

(** ** The interval parser *)

(** [to_minutes(t)]: [h, m = t.split(":")] raises unless there is exactly
    one colon, and each [int] raises on a malformed number. *)
Definition to_minutes (t : string) : res Z :=
  '(h, m) ← Py.unpack2 (Py.split ":" None t);
  h' ← Py.int h;
  m' ← Py.int m;
  mret (h' * 60 + m').

(** The tuple [(start_min, end_min, fixed, error_message)]. *)
Definition outcome : Type := option Z * option Z * bool * string.

Definition start_min (o : outcome) : option Z := o.1.1.1.
Definition end_min (o : outcome) : option Z := o.1.1.2.
Definition fixed (o : outcome) : bool := o.1.2.
Definition error_message (o : outcome) : string := o.2.

Definition markers : list string := ["ONLINE"; "TBA"; "NA"].

(** The two [if end <= start] statements of [parse_interval_smart]: the
    pair of the corrected [end] and the local flag [fixed]. *)
Definition auto_fix (start end_ : Z) : Z * bool :=
  let fixed := false in
  let '(end_, fixed) :=
    if end_ <=? start then (end_ + 720, true) else (end_, fixed) in
  let '(end_, fixed) :=
    if end_ <=? start then (end_ + 1440, true) else (end_, fixed) in
  (end_, fixed).

Definition duration_message (duration : Z) : string :=
  "Duration too long (" +:+ pretty duration +:+ " min)".

Definition parse_interval_smart (interval : value) : res outcome :=
  match interval with
  | VStr interval =>
      let interval := Py.replace " " "" interval in
      if negb (Py.contains "-" interval)
      then mret (None, None, false, "Missing dash")
      else
        '(start_str, end_str) ← Py.unpack2 (Py.split "-" (Some 1%nat) interval);
        if existsb (λ x, Py.contains x (Py.upper interval)) markers
        then mret (None, None, false, "Non-time entry (ONLINE/TBA)")
        else
          match (start ← to_minutes start_str;
                 end_ ← to_minutes end_str;
                 mret (start, end_)) with
          | Raise _ => mret (None, None, false, "Bad time format")
          | Ret (start, end_) =>
              let '(end_, fixed) := auto_fix start end_ in
              let duration := end_ - start in
              if 300 <? duration
              then mret (Some start, Some end_, false, duration_message duration)
              else mret (Some start, Some end_, fixed, "")
          end
  | _ => mret (None, None, false, "Non-string interval")
  end.

(** [parse] of the specification, on a string. *)
Definition parse (s : string) : res outcome := parse_interval_smart (VStr s).

(** ** Data frames *)

Record DataFrame : Type := {
  columns : list string;
  rows : list (gmap string value);
}.

(** [pd.DataFrame()] *)
Definition empty_frame : DataFrame := {| columns := []; rows := [] |}.

(** The cell of row [r] under column [c]; a cell the row does not hold
    reads as the missing value. *)
Definition cell (r : gmap string value) (c : string) : value :=
  default VNone (r !! c).

(** [df[c] = f(row)] for every row: the column is replaced, or added
    after the last one. *)
Definition assign (c : string) (f : gmap string value → value)
    (df : DataFrame) : DataFrame :=
  {| columns := if decide (c ∈ columns df) then columns df else columns df ++ [c];
     rows := (λ r, <[c := f r]> r) <$> rows df |}.

(** [df[keep(row)]]: boolean indexing keeps the rows, in order. *)
Definition select (keep : gmap string value → bool) (df : DataFrame) : DataFrame :=
  {| columns := columns df; rows := List.filter keep (rows df) |}.

(** [len(df)] *)
Definition len (df : DataFrame) : nat := length (rows df).

(** [sep.join(parts)] *)
Fixpoint join (sep : string) (parts : list string) : string :=
  match parts with
  | [] => ""
  | [a] => a
  | a :: rest => a +:+ sep +:+ join sep rest
  end.

(** What [preprocess_data] asks of the display layer. *)
Inductive st_call : Type :=
  | st_error (message : string).

(** ** The schedule normaliser *)

Definition required_cols : list string := ["Days"; "Class_Times"; "Hall"].

Definition clean_days (v : value) : value :=
  VStr (Py.replace " " "" (Py.upper (str v))).

Definition clean_class_times (v : value) : value :=
  VStr (Py.replace " " ""
         (Py.replace "." ":"
           (Py.replace "—" "-"
             (Py.replace "–" "-" (str v))))).

Definition of_option (o : option Z) : value :=
  match o with
  | Some z => VInt z
  | None => VNone
  end.

(** [pd.concat([df, parsed], axis=1)] on one row, [parsed] being the
    outcome of the row under the four new column labels. *)
Definition with_parsed (r : gmap string value) (o : outcome) : gmap string value :=
  <["ErrorMessage" := VStr (error_message o)]>
    (<["AutoFixed" := VBool (fixed o)]>
      (<["End_Min" := of_option (end_min o)]>
        (<["Start_Min" := of_option (start_min o)]> r))).

(** [df["End_Min"] - df["Start_Min"]]; a missing operand gives a missing
    difference. *)
Definition minus (a b : value) : value :=
  match a, b with
  | VInt x, VInt y => VInt (x - y)
  | _, _ => VNone
  end.

(** [(v // 60).astype(int)]: the cast raises on a missing value. *)
Definition start_hour (v : value) : res value :=
  match v with
  | VInt z => mret (VInt (z `div` 60))
  | _ => Raise ValueError
  end.

Definition parse_row (r : gmap string value) : res (gmap string value) :=
  o ← parse_interval_smart (cell r "Class_Times");
  mret (with_parsed r o).

Definition add_start_hour (r : gmap string value) : res (gmap string value) :=
  h ← start_hour (cell r "Start_Min");
  mret (<["Start_Hour" := h]> r).

Definition is_error (r : gmap string value) : bool :=
  negb (bool_decide (cell r "ErrorMessage" = VStr "")).

Definition is_valid (r : gmap string value) : bool :=
  bool_decide (cell r "ErrorMessage" = VStr "").

Definition parsed_cols : list string :=
  ["Start_Min"; "End_Min"; "AutoFixed"; "ErrorMessage"].

(** [preprocess_data(df)]: the calls made to the display layer, and the
    pair [(df_valid, df_errors)] or the exception raised. *)
Definition preprocess_data (df : DataFrame)
    : list st_call * res (DataFrame * DataFrame) :=
  let missing := filter (λ c, c ∉ columns df) required_cols in
  if negb (bool_decide (missing = []))
  then ([st_error ("Missing required columns: " +:+ join ", " missing)],
        mret (empty_frame, empty_frame))
  else
    ([],
     let df := assign "Days" (λ r, clean_days (cell r "Days")) df in
     let df := assign "Class_Times"
                 (λ r, clean_class_times (cell r "Class_Times")) df in
     parsed ← mapM parse_row (rows df);
     let df := {| columns := columns df ++ parsed_cols; rows := parsed |} in
     let df := assign "Duration"
                 (λ r, minus (cell r "End_Min") (cell r "Start_Min")) df in
     let df_errors := select is_error df in
     let df_valid := select is_valid df in
     with_hour ← mapM add_start_hour (rows df_valid);
     let df_valid :=
       {| columns := columns df_valid ++ ["Start_Hour"]; rows := with_hour |} in
     mret (df_valid, df_errors)).

(** ** Vocabulary of the statements *)

(** The marker test of [parse_interval_smart] on the text [t]. *)
Definition has_marker (t : string) : bool :=
  existsb (λ x, Py.contains x (Py.upper t)) markers.
Arguments has_marker : simpl never.

(** What [parse_interval_smart] returns once both sides have been read
    as [start] and [end_]. *)
Definition settle (start end_ : Z) : outcome :=
  let '(end_, fixed) := auto_fix start end_ in
  let duration := end_ - start in
  if 300 <? duration
  then (Some start, Some end_, false, duration_message duration)
  else (Some start, Some end_, fixed, "").



(** The two sides of a text read as [start] and [end_]. *)
Definition reads_as (t : string) (start end_ : Z) : Prop :=
  ∃ a b, Py.split "-" (Some 1%nat) t = [a; b] ∧
         to_minutes a = Ret start ∧ to_minutes b = Ret end_.

(** The characters a text can hold when both of its sides read as
    [HH:MM]: white space, digits, signs, the underscore and the colon. *)
Definition clock_char (c : ascii) : bool :=
  Py.is_space c || Py.is_digit c ||
  bool_decide (c ∈ ["+"; "-"; "_"; ":"]%char).

(** [c in s] for a one-character [c]. *)
Definition has_char (c : ascii) (s : string) : bool :=
  Py.contains (String c "") s.

(** Every character of [s] satisfies [P]. *)
Fixpoint all_chars (P : ascii → bool) (s : string) : bool :=
  match s with
  | EmptyString => true
  | String c s' => P c && all_chars P s'
  end.

(** What [preprocess_data] makes of one row.  [cleaned] is the row after
    the two clean-up assignments, [outcome_of] the tuple the parser
    returns for it, [normalised] the row with the parsed columns and the
    duration, [with_hour] a valid row with its start hour. *)
Definition cleaned (r : gmap string value) : gmap string value :=
  let r := <["Days" := clean_days (cell r "Days")]> r in
  <["Class_Times" := clean_class_times (cell r "Class_Times")]> r.

(** The [Raise] branch is never taken: see [parse_returns]. *)
Definition outcome_of (r : gmap string value) : outcome :=
  match parse_interval_smart (cell (cleaned r) "Class_Times") with
  | Ret o => o
  | Raise _ => (None, None, false, "raised")
  end.

Definition normalised (r : gmap string value) : gmap string value :=
  let r := with_parsed (cleaned r) (outcome_of r) in
  <["Duration" := minus (cell r "End_Min") (cell r "Start_Min")]> r.

Definition with_hour (r : gmap string value) : gmap string value :=
  match cell r "Start_Min" with
  | VInt z => <["Start_Hour" := VInt (z `div` 60)]> r
  | _ => r
  end.

(** The row is one the parser accepts. *)
Definition accepted (r : gmap string value) : bool :=
  bool_decide (error_message (outcome_of r) = "").


(** The list [missing] that [preprocess_data] computes. *)
Definition missing_cols (df : DataFrame) : list string :=
  filter (λ c, c ∉ columns df) required_cols.

(** [df[c].tolist()] *)
Definition column (c : string) (df : DataFrame) : list value :=
  (λ r, cell r c) <$> rows df.

(** The table with the three required columns and one row for each
    triple of a day token, an interval text and a hall. *)
Definition table (cells : list (string * string * string)) : DataFrame :=
  {| columns := ["Days"; "Class_Times"; "Hall"];
     rows := (λ '(days, class_times, hall),
                <["Days" := VStr days]>
                  (<["Class_Times" := VStr class_times]>
                    (<["Hall" := VStr hall]> ∅))) <$> cells |}.

(** ** The filter block of [main] *)

(** [a == b] on two cell values.  An integer and a boolean are equal when
    the boolean, read as 0 or 1, is that integer; a missing value equals
    nothing, itself included. *)
Definition py_eq (a b : value) : bool :=
  match a, b with
  | VStr x, VStr y => bool_decide (x = y)
  | VInt x, VInt y => bool_decide (x = y)
  | VBool x, VBool y => bool_decide (x = y)
  | VBool x, VInt y | VInt y, VBool x => bool_decide (y = if x then 1 else 0)
  | _, _ => false
  end.
Arguments py_eq : simpl never.

(** [df[c]]: the cells of a column, or [KeyError] when the frame has no
    such column. *)
Definition getitem (c : string) (df : DataFrame) : res (list value) :=
  if decide (c ∈ columns df)
  then mret ((λ r, cell r c) <$> rows df)
  else Raise (KeyError c).

(** [df[df[c] == rhs]]: the column is looked up first, then [rhs] is
    evaluated, then the rows whose cell equals it are kept. *)
Definition where_eq (c : string) (rhs : res value) (df : DataFrame) : res DataFrame :=
  _ ← getitem c df;
  v ← rhs;
  mret (select (λ r, py_eq (cell r c) v) df).

(** The three [if selected_... != "All"] statements of [main], from
    [df_filtered = df_valid.copy()] on.  The hall and the day chosen are
    values of the columns or the string ["All"]; the hour chosen is a
    string. *)
Definition filter_block (selected_hall selected_day : value)
    (selected_hour : string) (df_valid : DataFrame) : res DataFrame :=
  let df_filtered := df_valid in
  df_filtered ←
    (if negb (py_eq selected_hall (VStr "All"))
     then where_eq "Hall" (mret selected_hall) df_filtered
     else mret df_filtered);
  df_filtered ←
    (if negb (py_eq selected_day (VStr "All"))
     then where_eq "Days" (mret selected_day) df_filtered
     else mret df_filtered);
  df_filtered ←
    (if negb (bool_decide (selected_hour = "All"))
     then where_eq "Start_Hour"
            (h ← Py.int selected_hour; mret (VInt h)) df_filtered
     else mret df_filtered);
  mret df_filtered.

(** ** Further vocabulary *)

(** The number of occurrences of the character [c] in [s]. *)
Fixpoint count_char (c : ascii) (s : string) : nat :=
  match s with
  | EmptyString => O
  | String d s' => ((if Ascii.eqb d c then 1 else 0) + count_char c s')%nat
  end.

(** Every character of [s] is a 7-bit one. *)
Definition is_ascii (c : ascii) : bool := (Py.ord c <? 128)%nat.

(** The row matches what was chosen in the three select boxes. *)
Definition chosen (selected_hall selected_day : value) (selected_hour : option Z)
    (r : gmap string value) : bool :=
  (py_eq selected_hall (VStr "All") || py_eq (cell r "Hall") selected_hall) &&
  (py_eq selected_day (VStr "All") || py_eq (cell r "Days") selected_day) &&
  match selected_hour with
  | None => true
  | Some h => py_eq (cell r "Start_Hour") (VInt h)
  end.

(** The option of the hour select box: ["All"], or an hour written by
    [str]. *)
Definition hour_choice (selected_hour : option Z) : string :=
  match selected_hour with
  | None => "All"
  | Some h => str (VInt h)
  end.

(** The column labels of [df_errors] on a table that has the required
    columns; [df_valid] has the label [Start_Hour] after them. *)
Definition out_cols (df : DataFrame) : list string :=
  let df := assign "Days" (λ _, VNone) df in
  let df := assign "Class_Times" (λ _, VNone) df in
  let df := {| columns := columns df ++ parsed_cols; rows := [] |} in
  columns (assign "Duration" (λ _, VNone) df).

(** * Properties *)

(** ** Strings *)

Section strings.
Implicit Types (s t p : string) (c sep : ascii).

Lemma startswith_one c s :
  Py.startswith (String c "") s = match s with String d _ => Ascii.eqb c d | _ => false end.
Proof. destruct s as [|d s']; simpl; [done|]. by rewrite andb_true_r. Qed.

Lemma has_char_cons c d s :
  has_char c (String d s) = Ascii.eqb c d || has_char c s.
Proof. unfold has_char. simpl. by rewrite andb_true_r. Qed.

Lemma has_char_nil c : has_char c "" = false.
Proof. done. Qed.

Lemma has_char_all c s :
  has_char c s = false ↔ all_chars (λ d, negb (Ascii.eqb c d)) s = true.
Proof.
  induction s as [|d s IH]; [done|].
  rewrite has_char_cons. simpl.
  rewrite orb_false_iff, andb_true_iff, negb_true_iff. by rewrite IH.
Qed.

Lemma all_chars_impl (P Q : ascii → bool) s :
  (∀ c, P c = true → Q c = true) → all_chars P s = true → all_chars Q s = true.
Proof.
  intros HPQ. induction s as [|d s IH]; simpl; [done|].
  rewrite !andb_true_iff. intros [??]. auto.
Qed.

Lemma all_chars_app (P : ascii → bool) s t :
  all_chars P (s +:+ t) = all_chars P s && all_chars P t.
Proof. induction s as [|d s IH]; simpl; [done|]. by rewrite IH, andb_assoc. Qed.

(** *** [split] *)

Lemma split_nonempty sep n s : Py.split sep n s ≠ [].
Proof.
  revert n. induction s as [|d s IH]; intros n; simpl; [done|].
  destruct (_ && _); [done|]. by destruct (Py.split sep n s).
Qed.

Lemma split_zero sep s : Py.split sep (Some O) s = [s].
Proof.
  induction s as [|d s IH]; simpl; [done|].
  rewrite andb_false_r. by rewrite IH.
Qed.

(** Splitting once at a separator that occurs gives the text before its
    first occurrence, which holds no separator, and the text after it. *)
Lemma split_once sep s :
  has_char sep s = true →
  ∃ a b, Py.split sep (Some 1%nat) s = [a; b] ∧
         s = a +:+ String sep b ∧ has_char sep a = false.
Proof.
  induction s as [|d s IH]; [done|].
  rewrite has_char_cons. simpl.
  destruct (Ascii.eqb d sep) eqn:Hd.
  - intros _. apply Ascii.eqb_eq in Hd as ->. simpl.
    rewrite split_zero. by exists "", s.
  - rewrite Ascii.eqb_sym, Hd. simpl. intros Hs.
    destruct (IH Hs) as (a & b & -> & -> & Ha).
    exists (String d a), b. split_and!; [done..|].
    by rewrite has_char_cons, Ascii.eqb_sym, Hd.
Qed.

Lemma split_none sep s :
  has_char sep s = false → Py.split sep (Some 1%nat) s = [s].
Proof.
  induction s as [|d s IH]; [done|].
  rewrite has_char_cons, orb_false_iff. intros [Hd Hs]. simpl.
  rewrite Ascii.eqb_sym, Hd. simpl. by rewrite (IH Hs).
Qed.

(** Every part of a split is made of characters of the text. *)
Lemma split_all_chars (P : ascii → bool) sep n s :
  all_chars P s = true → Forall (λ p, all_chars P p = true) (Py.split sep n s).
Proof.
  revert n. induction s as [|d s IH]; intros n; simpl.
  - intros _. by constructor.
  - rewrite andb_true_iff. intros [Hd Hs].
    destruct (_ && _).
    + constructor; [done|]. by apply IH.
    + specialize (IH n Hs). destruct (Py.split sep n s) as [|hd tl].
      * constructor; [|done]. simpl. by rewrite Hd.
      * inversion_clear IH. constructor; [|done]. simpl. by rewrite Hd.
Qed.

(** Conversely the text is made of the characters of its parts and of
    the separator. *)
Lemma split_join_chars (P : ascii → bool) sep n s :
  P sep = true →
  Forall (λ p, all_chars P p = true) (Py.split sep n s) → all_chars P s = true.
Proof.
  intros Hsep. revert n. induction s as [|d s IH]; intros n; simpl; [done|].
  destruct (Ascii.eqb d sep && _) eqn:Hd.
  - apply andb_true_iff in Hd as [->%Ascii.eqb_eq _].
    inversion_clear 1. rewrite Hsep. simpl. eauto.
  - pose proof (split_nonempty sep n s) as Hne. specialize (IH n).
    destruct (Py.split sep n s) as [|hd tl]; [done|].
    inversion_clear 1 as [|?? Hhd Htl]. simpl in Hhd.
    apply andb_true_iff in Hhd as [-> Hhd]. simpl.
    apply IH. by constructor.
Qed.

(** *** [strip] *)

Lemma lstrip_all_chars (P : ascii → bool) s :
  all_chars P s = true → all_chars P (Py.lstrip s) = true.
Proof.
  induction s as [|d s IH]; simpl; [done|].
  rewrite andb_true_iff. intros [Hd Hs].
  destruct (Py.is_space d); [by apply IH|]. simpl. by rewrite Hd.
Qed.

Lemma rstrip_all_chars (P : ascii → bool) s :
  all_chars P s = true → all_chars P (Py.rstrip s) = true.
Proof.
  induction s as [|d s IH]; simpl; [done|].
  rewrite andb_true_iff. intros [Hd Hs]. specialize (IH Hs).
  destruct (Py.rstrip s) as [|e r].
  - destruct (Py.is_space d); simpl; [done|]. by rewrite Hd.
  - simpl in *. by rewrite Hd.
Qed.

Lemma lstrip_all_chars_inv (P : ascii → bool) s :
  (∀ c, Py.is_space c = true → P c = true) →
  all_chars P (Py.lstrip s) = true → all_chars P s = true.
Proof.
  intros Hsp. induction s as [|d s IH]; simpl; [done|].
  destruct (Py.is_space d) eqn:Hd; [|done].
  intros Hs. rewrite (Hsp _ Hd). simpl. auto.
Qed.

Lemma rstrip_all_chars_inv (P : ascii → bool) s :
  (∀ c, Py.is_space c = true → P c = true) →
  all_chars P (Py.rstrip s) = true → all_chars P s = true.
Proof.
  intros Hsp. induction s as [|d s IH]; simpl; [done|].
  destruct (Py.rstrip s) as [|e r].
  - destruct (Py.is_space d) eqn:Hd.
    + intros _. rewrite (Hsp _ Hd). simpl. by apply IH.
    + simpl. rewrite andb_true_r. intros ->. simpl. by apply IH.
  - simpl. rewrite !andb_true_iff. intros [Hd Hr]. split; [done|].
    apply IH. simpl. by rewrite andb_true_iff.
Qed.

End strings.

(** ** [int] and [to_minutes] *)

Section numbers.
Implicit Types (s t : string) (c : ascii) (z acc : Z).

Lemma digit_val_nonneg c : 0 ≤ Py.digit_val c.
Proof. unfold Py.digit_val. lia. Qed.

Lemma digits_nonneg acc b s z :
  0 ≤ acc → Py.digits acc b s = Some z → 0 ≤ z.
Proof.
  revert acc b. induction s as [|d s IH]; intros acc b Hacc; simpl.
  - destruct b; [done|]. by intros [= <-].
  - destruct (Py.is_digit d).
    + apply IH. pose proof (digit_val_nonneg d). lia.
    + destruct (_ && _); [by apply IH|done].
Qed.

Lemma unsigned_nonneg s z : Py.unsigned s = Some z → 0 ≤ z.
Proof.
  destruct s as [|d s]; simpl; [done|].
  destruct (Py.is_digit d); [|done].
  apply digits_nonneg, digit_val_nonneg.
Qed.

(** A text without a minus sign never reads as a negative number. *)
Lemma int_nonneg s z : has_char "-" s = false → Py.int s = Ret z → 0 ≤ z.
Proof.
  rewrite has_char_all. intros Hs.
  apply lstrip_all_chars, rstrip_all_chars in Hs.
  unfold Py.int. destruct (Py.rstrip (Py.lstrip s)) as [|d r] eqn:Hbody; [done|].
  change (negb (Ascii.eqb "-" d) && all_chars (λ d, negb (Ascii.eqb "-" d)) r = true) in Hs.
  apply andb_true_iff in Hs as [Hd _].
  apply negb_true_iff in Hd. rewrite Ascii.eqb_sym, Hd.
  destruct (Ascii.eqb d "+").
  - destruct (Py.unsigned r) as [y|] eqn:Hr; [|done].
    intros [= <-]. by eapply unsigned_nonneg.
  - destruct (Py.unsigned (String d r)) as [y|] eqn:Hr; [|done].
    intros [= <-]. by eapply unsigned_nonneg.
Qed.

Lemma is_digit_clock c : Py.is_digit c = true → clock_char c = true.
Proof. unfold clock_char. intros ->. by rewrite orb_true_r. Qed.

Lemma is_space_clock c : Py.is_space c = true → clock_char c = true.
Proof. unfold clock_char. by intros ->. Qed.

Lemma digits_clock acc b s z :
  Py.digits acc b s = Some z → all_chars clock_char s = true.
Proof.
  revert acc b. induction s as [|d s IH]; intros acc b; simpl; [done|].
  destruct (Py.is_digit d) eqn:Hd.
  - rewrite (is_digit_clock _ Hd). apply IH.
  - destruct (Ascii.eqb d "_") eqn:Hu; [|done].
    apply Ascii.eqb_eq in Hu as ->. destruct b; [done|]. apply IH.
Qed.

Lemma unsigned_clock s z : Py.unsigned s = Some z → all_chars clock_char s = true.
Proof.
  destruct s as [|d s]; simpl; [done|].
  destruct (Py.is_digit d) eqn:Hd; [|done].
  rewrite (is_digit_clock _ Hd). apply digits_clock.
Qed.

(** A text that reads as a number holds nothing but white space, a
    sign, digits and underscores. *)
Lemma int_clock s z : Py.int s = Ret z → all_chars clock_char s = true.
Proof.
  intros Hint.
  apply lstrip_all_chars_inv, rstrip_all_chars_inv; try apply is_space_clock.
  revert Hint. unfold Py.int.
  destruct (Py.rstrip (Py.lstrip s)) as [|d r]; [done|].
  destruct (Ascii.eqb d "-") eqn:Hm; [|destruct (Ascii.eqb d "+") eqn:Hp].
  - apply Ascii.eqb_eq in Hm as ->.
    destruct (Py.unsigned r) as [y|] eqn:Hr; [|done].
    intros _. simpl. by eapply unsigned_clock.
  - apply Ascii.eqb_eq in Hp as ->.
    destruct (Py.unsigned r) as [y|] eqn:Hr; [|done].
    intros _. simpl. by eapply unsigned_clock.
  - destruct (Py.unsigned (String d r)) as [y|] eqn:Hr; [|done].
    intros _. by eapply unsigned_clock.
Qed.

(** What a successful [to_minutes] tells about its argument. *)
Lemma to_minutes_inv t z :
  to_minutes t = Ret z →
  ∃ h m h' m', Py.split ":" None t = [h; m] ∧
               Py.int h = Ret h' ∧ Py.int m = Ret m' ∧ z = h' * 60 + m'.
Proof.
  unfold to_minutes.
  destruct (Py.split ":" None t) as [|h [|m [|??]]] eqn:Hsplit; try done.
  simpl. destruct (Py.int h) as [h'|] eqn:Hh; [|done].
  simpl. destruct (Py.int m) as [m'|] eqn:Hm; [|done].
  intros [= <-]. by exists h, m, h', m'.
Qed.

Lemma to_minutes_nonneg t z :
  has_char "-" t = false → to_minutes t = Ret z → 0 ≤ z.
Proof.
  rewrite has_char_all. intros Ht (h & m & h' & m' & Hsplit & Hh & Hm & ->)%to_minutes_inv.
  pose proof (split_all_chars _ ":" None t Ht) as Hparts.
  rewrite Hsplit in Hparts.
  inversion_clear Hparts as [|?? Hh0 Hrest]. inversion_clear Hrest as [|?? Hm0 _].
  apply has_char_all in Hh0, Hm0.
  pose proof (int_nonneg _ _ Hh0 Hh). pose proof (int_nonneg _ _ Hm0 Hm). lia.
Qed.

Lemma to_minutes_clock t z : to_minutes t = Ret z → all_chars clock_char t = true.
Proof.
  intros (h & m & h' & m' & Hsplit & Hh & Hm & _)%to_minutes_inv.
  apply (split_join_chars _ ":" None); [done|].
  rewrite Hsplit. repeat constructor; by eapply int_clock.
Qed.

End numbers.

(** ** The parser, case by case *)

Section parser.
Implicit Types (s t a b : string) (c d : ascii) (o : outcome).

(** The body of [parse_interval_smart] on a string, in the vocabulary
    of the statements. *)
Lemma parse_unfold s :
  parse s =
    let t := Py.replace " " "" s in
    if has_char "-" t
    then
      '(start_str, end_str) ← Py.unpack2 (Py.split "-" (Some 1%nat) t);
      if has_marker t
      then Ret (None, None, false, "Non-time entry (ONLINE/TBA)")
      else
        match to_minutes start_str with
        | Ret start =>
            match to_minutes end_str with
            | Ret end_ => Ret (settle start end_)
            | Raise _ => Ret (None, None, false, "Bad time format")
            end
        | Raise _ => Ret (None, None, false, "Bad time format")
        end
    else Ret (None, None, false, "Missing dash").
Proof.
  unfold parse, parse_interval_smart, has_marker, has_char. cbv zeta.
  destruct (Py.contains "-" _); [|done]. simpl.
  destruct (Py.unpack2 _) as [[a b]|]; [|done]. simpl.
  destruct (_ || _); [done|].
  destruct (to_minutes a) as [start|]; [|done]. simpl.
  destruct (to_minutes b) as [end_|]; [|done]. simpl.
  unfold settle. destruct (auto_fix start end_) as [e f].
  by destruct (300 <? e - start).
Qed.

Lemma clock_char_upper d :
  clock_char d = true →
  forallb (λ c, negb (Ascii.eqb c (Py.upper_char d))) ["O"; "T"; "N"]%char = true.
Proof. destruct d as [[] [] [] [] [] [] [] []]; vm_compute; done. Qed.

Lemma clock_text_lacks s c p :
  c ∈ ["O"; "T"; "N"]%char → all_chars clock_char s = true →
  Py.contains (String c p) (Py.upper s) = false.
Proof.
  intros Hc. induction s as [|d s IH]; [done|].
  intros [Hd Hs]%andb_true_iff.
  change (Py.contains (String c p) (Py.upper (String d s)))
    with (Ascii.eqb c (Py.upper_char d) && Py.startswith p (Py.upper s)
          || Py.contains (String c p) (Py.upper s)).
  rewrite (IH Hs), orb_false_r.
  pose proof (clock_char_upper d Hd) as Hall.
  rewrite forallb_forall in Hall.
  apply list_elem_of_In, Hall, negb_true_iff in Hc. by rewrite Hc.
Qed.

(** A text made of clock characters holds no marker. *)
Lemma clock_text_no_marker s : all_chars clock_char s = true → has_marker s = false.
Proof.
  intros Hs. unfold has_marker, markers. simpl.
  rewrite !clock_text_lacks; try done; set_solver.
Qed.

(** A text whose two sides read as times holds no marker. *)
Lemma reads_as_no_marker t start end_ : reads_as t start end_ → has_marker t = false.
Proof.
  intros (a & b & Hsplit & Ha & Hb). apply clock_text_no_marker.
  apply (split_join_chars _ "-" (Some 1%nat)); [done|].
  rewrite Hsplit. repeat constructor; by eapply to_minutes_clock.
Qed.

Lemma reads_as_has_dash t start end_ : reads_as t start end_ → has_char "-" t = true.
Proof.
  intros (a & b & Hsplit & _). destruct (has_char "-" t) eqn:Hd; [done|].
  by rewrite (split_none _ _ Hd) in Hsplit.
Qed.

Lemma parse_missing_dash s :
  has_char "-" (Py.replace " " "" s) = false →
  parse s = Ret (None, None, false, "Missing dash").
Proof. intros Hd. rewrite parse_unfold. cbv zeta. by rewrite Hd. Qed.

Lemma parse_marker s :
  has_char "-" (Py.replace " " "" s) = true →
  has_marker (Py.replace " " "" s) = true →
  parse s = Ret (None, None, false, "Non-time entry (ONLINE/TBA)").
Proof.
  intros Hd Hm. rewrite parse_unfold. cbv zeta. rewrite Hd.
  destruct (split_once _ _ Hd) as (a & b & -> & _). simpl. by rewrite Hm.
Qed.

Lemma parse_reads s start end_ :
  reads_as (Py.replace " " "" s) start end_ → parse s = Ret (settle start end_).
Proof.
  intros Hr. pose proof (reads_as_no_marker _ _ _ Hr) as Hm.
  pose proof (reads_as_has_dash _ _ _ Hr) as Hd.
  destruct Hr as (a & b & Hsplit & Ha & Hb).
  rewrite parse_unfold. cbv zeta. rewrite Hd, Hsplit. simpl.
  by rewrite Hm, Ha, Hb.
Qed.

(** The four ways a string leaves [parse_interval_smart]. *)
Lemma parse_cases s :
  let t := Py.replace " " "" s in
  (has_char "-" t = false ∧ parse s = Ret (None, None, false, "Missing dash")) ∨
  (has_char "-" t = true ∧ has_marker t = true ∧
     parse s = Ret (None, None, false, "Non-time entry (ONLINE/TBA)")) ∨
  (has_char "-" t = true ∧ has_marker t = false ∧
     parse s = Ret (None, None, false, "Bad time format")) ∨
  (∃ a b start end_,
     Py.split "-" (Some 1%nat) t = [a; b] ∧ has_char "-" a = false ∧
     to_minutes a = Ret start ∧ to_minutes b = Ret end_ ∧
     parse s = Ret (settle start end_)).
Proof.
  intros t. destruct (has_char "-" t) eqn:Hd.
  2: { left. split; [done|]. by apply parse_missing_dash. }
  right. destruct (has_marker t) eqn:Hm.
  { left. split_and!; [done..|]. by apply parse_marker. }
  right. destruct (split_once _ _ Hd) as (a & b & Hsplit & _ & Ha).
  destruct (to_minutes a) as [start|ea] eqn:Hta;
    [destruct (to_minutes b) as [end_|eb] eqn:Htb|].
  - right. exists a, b, start, end_. split_and!; try done.
    apply parse_reads. by exists a, b.
  - left. split_and!; [done..|]. rewrite parse_unfold. cbv zeta. fold t.
    rewrite Hd, Hsplit. simpl. by rewrite Hm, Hta, Htb.
  - left. split_and!; [done..|]. rewrite parse_unfold. cbv zeta. fold t.
    rewrite Hd, Hsplit. simpl. by rewrite Hm, Hta.
Qed.

End parser.

(** ** The correction ladder and the duration cap *)

Section settle.
Implicit Types (s t : string) (start d : Z) (o : outcome).

Lemma auto_fix_unchanged start (end_ : Z) :
  start < end_ → auto_fix start end_ = (end_, false).
Proof.
  intros H. unfold auto_fix.
  destruct (Z.leb_spec end_ start); [lia|].
  by destruct (Z.leb_spec end_ start); [lia|].
Qed.

Lemma auto_fix_once start (end_ : Z) :
  end_ ≤ start → start < end_ + 720 → auto_fix start end_ = (end_ + 720, true).
Proof.
  intros H1 H2. unfold auto_fix.
  destruct (Z.leb_spec end_ start); [|lia].
  by destruct (Z.leb_spec (end_ + 720) start); [lia|].
Qed.

Lemma auto_fix_twice start (end_ : Z) :
  end_ + 720 ≤ start → auto_fix start end_ = (end_ + 720 + 1440, true).
Proof.
  intros H. unfold auto_fix.
  destruct (Z.leb_spec end_ start); [|lia].
  by destruct (Z.leb_spec (end_ + 720) start); [|lia].
Qed.

Lemma settle_over_cap start (end_ : Z) :
  300 < (auto_fix start end_).1 - start →
  settle start end_ =
    (Some start, Some (auto_fix start end_).1, false,
     duration_message ((auto_fix start end_).1 - start)).
Proof.
  intros H. unfold settle. destruct (auto_fix start end_) as [e f]. simpl in *.
  by destruct (Z.ltb_spec 300 (e - start)); [|lia].
Qed.

Lemma settle_within_cap start (end_ : Z) :
  (auto_fix start end_).1 - start ≤ 300 →
  settle start end_ =
    (Some start, Some (auto_fix start end_).1, (auto_fix start end_).2, "").
Proof.
  intros H. unfold settle. destruct (auto_fix start end_) as [e f]. simpl in *.
  by destruct (Z.ltb_spec 300 (e - start)); [lia|].
Qed.

Lemma duration_message_nonempty d : duration_message d ≠ "".
Proof. done. Qed.




(** Which outcomes of [settle] carry which message. *)
Lemma settle_message start (end_ : Z) :
  (error_message (settle start end_) = "" ∧ (auto_fix start end_).1 - start ≤ 300) ∨
  (error_message (settle start end_) = duration_message ((auto_fix start end_).1 - start)
   ∧ 300 < (auto_fix start end_).1 - start).
Proof.
  destruct (Z.le_gt_cases ((auto_fix start end_).1 - start) 300) as [H|H].
  - left. by rewrite settle_within_cap.
  - right. by rewrite settle_over_cap.
Qed.

End settle.

(** ** The outcome of the parser *)

Section outcomes.
Implicit Types (s t a b : string) (v : value) (o : outcome).


(** [parse_interval_smart] returns on every value. *)
Lemma parse_returns v : ∃ o, parse_interval_smart v = Ret o.
Proof.
  destruct v as [s| | |]; try by eexists.
  destruct (parse_cases s) as [[_ H]|[(_ & _ & H)|[(_ & _ & H)|H]]];
    [by eexists..|].
  destruct H as (a & b & start & end_ & _ & _ & _ & _ & H). by eexists.
Qed.


(** A parsed range starts at or after midnight and lasts 300 minutes
    at most; its end and its flag are those of the ladder. *)
Lemma parse_valid_range v o :
  parse_interval_smart v = Ret o → error_message o = "" →
  ∃ start end_,
    o = (Some start, Some (auto_fix start end_).1, (auto_fix start end_).2, "") ∧
    0 ≤ start ∧ (auto_fix start end_).1 - start ≤ 300.
Proof.
  destruct v as [s| | |]; try by intros [= <-].
  fold (parse s).
  destruct (parse_cases s) as [[_ H]|[(_ & _ & H)|[(_ & _ & H)|H]]];
    try by (rewrite H; intros [= <-]).
  destruct H as (a & b & start & end_ & _ & Ha & Hta & _ & ->). intros [= <-] Hmsg.
  exists start, end_.
  destruct (settle_message start end_) as [[_ Hd]|[Hm _]].
  - rewrite settle_within_cap by done. split_and!; [done| |done].
    by eapply to_minutes_nonneg.
  - rewrite Hm in Hmsg. by apply duration_message_nonempty in Hmsg.
Qed.

End outcomes.

(** ** Worked inputs *)

Example upper_mixed : Py.upper "Tba-only 9:30" = "TBA-ONLY 9:30".
Proof. reflexivity. Qed.

Example replace_spaces : Py.replace " " "" " 9:00 - 10:30 " = "9:00-10:30".
Proof. reflexivity. Qed.

Example replace_en_dash : Py.replace "–" "-" "9:00–10:30" = "9:00-10:30".
Proof. reflexivity. Qed.

Example split_all : Py.split ":" None "1:2:3" = ["1"; "2"; "3"].
Proof. reflexivity. Qed.

Example split_first : Py.split "-" (Some 1%nat) "9:00--1:00" = ["9:00"; "-1:00"].
Proof. reflexivity. Qed.

Example split_empty : Py.split ":" None "" = [""].
Proof. reflexivity. Qed.

Example int_examples :
  Py.int "09" = Ret 9 ∧ Py.int "-100" = Ret (-100) ∧ Py.int "+7" = Ret 7 ∧
  Py.int "1_000" = Ret 1000 ∧ Py.int "" = Raise ValueError ∧
  Py.int "1__0" = Raise ValueError ∧ Py.int "- 5" = Raise ValueError ∧
  Py.int "12a" = Raise ValueError ∧ Py.int "_1" = Raise ValueError.
Proof. repeat split; reflexivity. Qed.

Example parse_plain : parse "9:00-10:30" = Ret (Some 540, Some 630, false, "").
Proof. reflexivity. Qed.

Example parse_spaces : parse " 9:00 - 10:30" = Ret (Some 540, Some 630, false, "").
Proof. reflexivity. Qed.

Example parse_pm : parse "11:00-1:00" = Ret (Some 660, Some 780, true, "").
Proof. reflexivity. Qed.

Example parse_rollover :
  parse "23:00-0:30" = Ret (Some 1380, Some 2190, false, "Duration too long (810 min)").
Proof. reflexivity. Qed.

Example parse_no_colon : parse "9-30" = Ret (None, None, false, "Bad time format").
Proof. reflexivity. Qed.

Example parse_no_dash : parse "9:00" = Ret (None, None, false, "Missing dash").
Proof. reflexivity. Qed.

(** * The claims about the interval parser *)




(** C2, at the input ["40:00-1:00"]: the sides read as 2400 and 60; both
    corrections leave the end at 2220, before the start; the duration
    -180 is not above 300 and the outcome is returned with the empty
    message.  The same happens at ["9:00--100:00"], whose text after the
    first dash, ["-100:00"], reads as -6000. *)
Theorem C2_end_before_start_returned_as_valid :
  (to_minutes "40:00" = Ret 2400 ∧ to_minutes "1:00" = Ret 60 ∧
   auto_fix 2400 60 = (2220, true) ∧
   parse "40:00-1:00" = Ret (Some 2400, Some 2220, true, "") ∧
   ¬ (2220 > 2400)) ∧
  (to_minutes "-100:00" = Ret (-6000) ∧
   auto_fix 540 (-6000) = (-3840, true) ∧
   parse "9:00--100:00" = Ret (Some 540, Some (-3840), true, "") ∧
   ¬ (-3840 > 540)).
Proof. split; split_and!; try reflexivity; lia. Qed.

(** C4, as stated, fails: the outcome of ["1:00-2:00"] does not carry a
    true flag. *)
Lemma C4_flag_not_set :
  ¬ ∃ o, parse "1:00-2:00" = Ret o ∧ fixed o = true.
Proof. intros (o & [= <-] & Hf). discriminate Hf. Qed.

(** C4, amended: ["1:00-2:00"] reads as 60 and 120; the end is already
    after the start, so no correction is applied; the difference is 60,
    the flag is false and the outcome is a parsed range. *)
Theorem C4_one_to_two_unchanged :
  to_minutes "1:00" = Ret 60 ∧ to_minutes "2:00" = Ret 120 ∧
  auto_fix 60 120 = (120, false) ∧
  parse "1:00-2:00" = Ret (Some 60, Some 120, false, "") ∧
  120 - 60 = 60.
Proof. split_and!; reflexivity. Qed.

(** C5: for every pair read from the two sides, an end at or before the
    start gets 720 minutes once; if it is still at or before the start it
    gets a further 1440; each correction sets the flag; an end after the
    start is left alone with the flag false.  A parsed range carries the
    end and the flag the ladder computed. *)
Theorem C5_correction_ladder (start end_ : Z) :
  (start < end_ → auto_fix start end_ = (end_, false)) ∧
  (end_ ≤ start → start < end_ + 720 →
     auto_fix start end_ = (end_ + 720, true)) ∧
  (end_ ≤ start → end_ + 720 ≤ start →
     auto_fix start end_ = (end_ + 720 + 1440, true)) ∧
  (∀ s a b,
     Py.split "-" (Some 1%nat) (Py.replace " " "" s) = [a; b] →
     to_minutes a = Ret start → to_minutes b = Ret end_ →
     (auto_fix start end_).1 - start ≤ 300 →
     parse s = Ret (Some start, Some (auto_fix start end_).1,
                    (auto_fix start end_).2, "")).
Proof.
  split_and!.
  - apply auto_fix_unchanged.
  - apply auto_fix_once.
  - intros _. apply auto_fix_twice.
  - intros s a b Hsplit Ha Hb Hd.
    rewrite (parse_reads s start end_) by (by exists a, b).
    by rewrite settle_within_cap.
Qed.

Lemma C5_correction_ladder_witness :
  auto_fix 540 630 = (630, false) ∧
  auto_fix 660 60 = (780, true) ∧
  auto_fix 900 60 = (2220, true) ∧
  parse "11:00 - 1:00" = Ret (Some 660, Some 780, true, "").
Proof.
  split_and!.
  - apply (C5_correction_ladder 540 630). lia.
  - apply (C5_correction_ladder 660 60); lia.
  - apply (C5_correction_ladder 900 60); lia.
  - apply (C5_correction_ladder 660 60 ) with (a := "11:00") (b := "1:00");
      [reflexivity..|vm_compute; discriminate].
Defined.





(** C10: an outcome whose message is the duration message carries both
    minute values and a false flag, whatever the ladder did.
    ["10:00-4:00"] got the 720 minutes and ["15:00-1:00"] both
    corrections, ["9:00-15:30"] none: all three are returned with a false
    flag. *)
Theorem C10_over_cap_flag_false :
  (∀ v o d,
     parse_interval_smart v = Ret o → error_message o = duration_message d →
     is_Some (start_min o) ∧ is_Some (end_min o) ∧ fixed o = false) ∧
  (auto_fix 600 240 = (960, true) ∧
   parse "10:00-4:00" = Ret (Some 600, Some 960, false, "Duration too long (360 min)")) ∧
  (auto_fix 900 60 = (2220, true) ∧
   parse "15:00-1:00" = Ret (Some 900, Some 2220, false, "Duration too long (1320 min)")) ∧
  (auto_fix 540 930 = (930, false) ∧
   parse "9:00-15:30" = Ret (Some 540, Some 930, false, "Duration too long (390 min)")).
Proof.
  split_and!; try reflexivity.
  intros v o d. destruct v as [s| | |]; try by intros [= <-].
  fold (parse s).
  destruct (parse_cases s) as [[_ H]|[(_ & _ & H)|[(_ & _ & H)|H]]];
    try by (rewrite H; intros [= <-]).
  destruct H as (a & b & start & end_ & _ & _ & _ & _ & ->). intros [= <-].
  destruct (settle_message start end_) as [[Hm _]|[_ Hd]].
  - rewrite Hm. intros Hd. symmetry in Hd. by apply duration_message_nonempty in Hd.
  - intros _. by rewrite settle_over_cap.
Qed.

Lemma C10_over_cap_flag_false_witness :
  is_Some (start_min (Some 600, Some 960, false, duration_message 360)) ∧
  is_Some (end_min (Some 600, Some 960, false, duration_message 360)) ∧
  fixed (Some 600, Some 960, false, duration_message 360) = false.
Proof.
  destruct C10_over_cap_flag_false as (H & _).
  apply (H (VStr "10:00-4:00") _ 360); reflexivity.
Defined.

(** * The schedule normaliser *)

Section table.
Implicit Types (df : DataFrame) (r : gmap string value) (c : string).

Lemma res_bind_ret {A B} (a : A) (k : A → res B) : Ret a ≫= k = k a.
Proof. done. Qed.

(** A [mapM] over the images of [l] under [h] whose steps all return. *)
Lemma mapM_ret {A B C} (f : B → res C) (h : A → B) (g : A → C) (l : list A) :
  Forall (λ x, f (h x) = Ret (g x)) l → mapM f (h <$> l) = Ret (g <$> l).
Proof.
  induction 1 as [|x l Hx _ IH]; [done|].
  change (mapM f (h <$> x :: l))
    with (y ← f (h x); k ← mapM f (h <$> l); mret (y :: k)).
  by rewrite Hx, res_bind_ret, IH, res_bind_ret.
Qed.

Lemma filter_fmap {A B} (p : B → bool) (f : A → B) (l : list A) :
  List.filter p (f <$> l) = f <$> List.filter (λ x, p (f x)) l.
Proof.
  induction l as [|x l IH]; [done|].
  csimpl. destruct (p (f x)); csimpl; by rewrite IH.
Qed.


Lemma filter_ext_in {A} (p q : A → bool) (l : list A) :
  (∀ x, p x = q x) → List.filter p l = List.filter q l.
Proof.
  intros Hpq. induction l as [|x l IH]; [done|].
  simpl. by rewrite Hpq, IH.
Qed.

Lemma missing_none df :
  required_cols ⊆ columns df →
  filter (λ c, c ∉ columns df) required_cols = [].
Proof.
  intros Hsub. unfold required_cols in *.
  rewrite !filter_cons, filter_nil.
  repeat case_decide; try done; set_solver.
Qed.

Lemma parse_row_normal r :
  parse_row (cleaned r) = Ret (with_parsed (cleaned r) (outcome_of r)).
Proof.
  unfold parse_row, outcome_of.
  by destruct (parse_returns (cell (cleaned r) "Class_Times")) as [o ->].
Qed.

Lemma normalised_error_message r :
  cell (normalised r) "ErrorMessage" = VStr (error_message (outcome_of r)).
Proof. unfold normalised, with_parsed, cell. by simplify_map_eq. Qed.

Lemma normalised_start_min r :
  cell (normalised r) "Start_Min" = of_option (start_min (outcome_of r)).
Proof. unfold normalised, with_parsed, cell. by simplify_map_eq. Qed.

Lemma normalised_end_min r :
  cell (normalised r) "End_Min" = of_option (end_min (outcome_of r)).
Proof. unfold normalised, with_parsed, cell. by simplify_map_eq. Qed.

Lemma is_valid_normalised r : is_valid (normalised r) = accepted r.
Proof.
  unfold is_valid, accepted. rewrite normalised_error_message.
  apply bool_decide_ext. split; [by intros [= ->]|by intros ->].
Qed.

Lemma is_error_normalised r : is_error (normalised r) = negb (accepted r).
Proof. unfold is_error. f_equal. apply is_valid_normalised. Qed.

(** An accepted row holds the start, the end and the flag of a parsed
    range. *)
Lemma accepted_range r :
  accepted r = true →
  ∃ start end_,
    outcome_of r =
      (Some start, Some (auto_fix start end_).1, (auto_fix start end_).2, "") ∧
    0 ≤ start ∧ (auto_fix start end_).1 - start ≤ 300.
Proof.
  unfold accepted. intros Hacc%bool_decide_eq_true.
  unfold outcome_of in *.
  destruct (parse_returns (cell (cleaned r) "Class_Times")) as [o Ho].
  rewrite Ho in *. by eapply parse_valid_range.
Qed.

Lemma add_start_hour_normal r :
  accepted r = true → add_start_hour (normalised r) = Ret (with_hour (normalised r)).
Proof.
  intros (start & end_ & Ho & _)%accepted_range.
  unfold add_start_hour, with_hour. rewrite normalised_start_min, Ho. done.
Qed.

(** The rows of the table after the two clean-up assignments and the
    parse, column by column. *)
Lemma preprocess_data_rows df :
  required_cols ⊆ columns df →
  ∃ valid invalid,
    preprocess_data df = ([], Ret (valid, invalid)) ∧
    rows valid = (with_hour ∘ normalised) <$> List.filter accepted (rows df) ∧
    rows invalid = normalised <$> List.filter (λ r, negb (accepted r)) (rows df).
Proof.
  intros Hsub. unfold preprocess_data. rewrite (missing_none _ Hsub). simpl.
  rewrite <-list_fmap_compose.
  rewrite (mapM_ret _ _ (λ r, with_parsed (cleaned r) (outcome_of r))).
  2: { apply Forall_forall. intros r _. apply parse_row_normal. }
  rewrite res_bind_ret. rewrite <-list_fmap_compose.
  change (_ ∘ _ <$> rows df) with (normalised <$> rows df).
  rewrite filter_fmap.
  rewrite (filter_ext_in _ accepted) by apply is_valid_normalised.
  rewrite (mapM_ret _ _ (with_hour ∘ normalised)).
  2: { apply Forall_forall. intros r [_ Hr]%list_elem_of_In%filter_In.
       by apply add_start_hour_normal. }
  rewrite res_bind_ret. eexists _, _. split_and!; [done..|].
  unfold select, assign. cbn [rows]. rewrite <-list_fmap_compose.
  change (_ ∘ _ <$> rows df) with (normalised <$> rows df).
  rewrite filter_fmap. f_equal. apply filter_ext_in, is_error_normalised.
Qed.

End table.

Section guard.
Implicit Types (df : DataFrame) (r : gmap string value) (c : string).

Lemma missing_cols_nil df : missing_cols df = [] ↔ required_cols ⊆ columns df.
Proof.
  split; [|apply missing_none].
  intros Hnil c Hc.
  destruct (decide (c ∈ columns df)) as [|Hout]; [done|].
  assert (c ∈ missing_cols df) as Hin by (by apply list_elem_of_filter).
  rewrite Hnil in Hin. by apply elem_of_nil in Hin.
Qed.

(** With a required column missing, the whole of [preprocess_data] is
    the call to [st.error] and the return of two empty frames. *)
Lemma preprocess_data_missing df :
  missing_cols df ≠ [] →
  preprocess_data df =
    ([st_error ("Missing required columns: " +:+ join ", " (missing_cols df))],
     Ret (empty_frame, empty_frame)).
Proof.
  intros Hsome. unfold preprocess_data. fold (missing_cols df).
  by rewrite bool_decide_eq_false_2.
Qed.

Lemma missing_named df c :
  c ∈ required_cols → c ∉ columns df →
  Py.contains c ("Missing required columns: " +:+ join ", " (missing_cols df)) = true.
Proof.
  unfold missing_cols, required_cols. rewrite !filter_cons, filter_nil.
  rewrite !elem_of_cons, elem_of_nil.
  intros [->|[->|[->|[]]]] Hc; repeat case_decide; done.
Qed.

End guard.

Section passthrough.
Implicit Types (r : gmap string value) (c : string).



Lemma with_hour_start_min r : cell (with_hour r) "Start_Min" = cell r "Start_Min".
Proof.
  unfold with_hour. destruct (cell r "Start_Min") eqn:Hs; try done.
  unfold cell in *. by rewrite lookup_insert_ne.
Qed.

End passthrough.

(** * The claims about the schedule normaliser *)



(** C7: on a table that lacks one of [Days], [Class_Times], [Hall],
    [preprocess_data] does nothing with the rows: it makes one call to
    [st.error] and returns two empty frames.  The message lists the
    missing columns, so it names each of them, and the result is the one
    the same columns give without any row. *)
Theorem C7_missing_column_guard (df : DataFrame) :
  missing_cols df ≠ [] →
  let message := "Missing required columns: " +:+ join ", " (missing_cols df) in
  preprocess_data df = ([st_error message], Ret (empty_frame, empty_frame)) ∧
  rows empty_frame = [] ∧
  (∀ c, c ∈ required_cols → c ∉ columns df →
        c ∈ missing_cols df ∧ Py.contains c message = true) ∧
  preprocess_data df = preprocess_data {| columns := columns df; rows := [] |}.
Proof.
  intros Hsome message. split_and!.
  - by apply preprocess_data_missing.
  - done.
  - intros c Hc Hout. split; [by apply list_elem_of_filter|by apply missing_named].
  - by rewrite !preprocess_data_missing.
Qed.

Lemma C7_missing_column_guard_witness :
  let df := {| columns := ["Days"; "Class_Times"; "Room"];
               rows := [ <["Days" := VStr "MWF"]>
                           (<["Class_Times" := VStr "9:00-10:30"]>
                             (<["Room" := VStr "H1"]> ∅)) ] |} in
  preprocess_data df
    = ([st_error "Missing required columns: Hall"], Ret (empty_frame, empty_frame)) ∧
  "Hall" ∈ missing_cols df ∧
  Py.contains "Hall" "Missing required columns: Hall" = true.
Proof.
  intros df.
  destruct (C7_missing_column_guard df) as (Hrun & _ & Hnamed & _).
  - vm_compute. discriminate.
  - split; [exact Hrun|]. apply (Hnamed "Hall"); compute_done.
Defined.

(** C9, as stated, fails: the row whose interval is ["25:00-26:00"] is
    valid, starts at minute 1500 and gets the start hour 25. *)
Lemma C9_start_hour_25 :
  ∃ valid invalid,
    preprocess_data (table [("MWF", "25:00-26:00", "H1")])
      = ([], Ret (valid, invalid)) ∧
    column "Start_Min" valid = [VInt 1500] ∧
    column "Start_Hour" valid = [VInt 25] ∧
    ¬ (25 ≤ 23).
Proof.
  eexists _, _. split_and!; [vm_compute; reflexivity|vm_compute; reflexivity..|lia].
Qed.

(** C9, amended: every row of the valid output holds an integer start
    minute, and its start hour is that minute divided by 60, rounded
    down, and is not negative.  No upper bound holds, since the hours of
    the text are not checked against 24. *)
Theorem C9_start_hour_nonneg (df valid invalid : DataFrame) (r : gmap string value) :
  (preprocess_data df).2 = Ret (valid, invalid) →
  r ∈ rows valid →
  ∃ start,
    cell r "Start_Min" = VInt start ∧
    cell r "Start_Hour" = VInt (start `div` 60) ∧
    0 ≤ start `div` 60.
Proof.
  intros Hrun Hr. destruct (decide (missing_cols df = [])) as [Hnone|Hsome].
  - apply missing_cols_nil in Hnone.
    destruct (preprocess_data_rows df Hnone) as (v & i & Hrun' & Hv & _).
    rewrite Hrun' in Hrun. injection Hrun as <- <-.
    rewrite Hv in Hr. apply list_elem_of_fmap in Hr as (r0 & -> & Hr0).
    apply list_elem_of_In, filter_In in Hr0 as [_ Hacc].
    destruct (accepted_range r0 Hacc) as (start & end_ & Ho & Hstart & _).
    exists start. simpl.
    assert (cell (normalised r0) "Start_Min" = VInt start) as Hs
      by (by rewrite normalised_start_min, Ho).
    split_and!.
    + by rewrite with_hour_start_min.
    + unfold with_hour. rewrite Hs. unfold cell. by rewrite lookup_insert_eq.
    + by apply Z.div_pos.
  - rewrite (preprocess_data_missing df Hsome) in Hrun.
    injection Hrun as <- <-. by apply elem_of_nil in Hr.
Qed.

Lemma C9_start_hour_nonneg_witness :
  ∃ start,
    cell (with_hour (normalised (<["Class_Times" := VStr "25:00-26:00"]> ∅)))
      "Start_Min" = VInt start ∧
    cell (with_hour (normalised (<["Class_Times" := VStr "25:00-26:00"]> ∅)))
      "Start_Hour" = VInt (start `div` 60) ∧
    0 ≤ start `div` 60.
Proof.
  eapply (C9_start_hour_nonneg
            {| columns := required_cols;
               rows := [<["Class_Times" := VStr "25:00-26:00"]> ∅] |}).
  - vm_compute. reflexivity.
  - vm_compute. left.
Defined.

(** * Further properties of the code *)

(** ** Numbers written and read back *)

Section round_trip.
Implicit Types (s t : string) (c : ascii) (x : N) (z : Z).

Lemma digits_snoc acc b s c z :
  Py.digits acc b s = Some z → Py.is_digit c = true →
  Py.digits acc b (s +:+ String c "") = Some (z * 10 + Py.digit_val c).
Proof.
  intros Hs Hc. revert acc b Hs. induction s as [|d s IH]; intros acc b; simpl.
  - destruct b; [done|]. intros [= <-]. by rewrite Hc.
  - destruct (Py.is_digit d); [apply IH|].
    destruct (_ && _); [apply IH|done].
Qed.

Lemma string_app_assoc s t u : (s +:+ t) +:+ u = s +:+ t +:+ u.
Proof.
  induction s as [|c s IH]; [done|].
  change (String c ((s +:+ t) +:+ u) = String c (s +:+ t +:+ u)). by rewrite IH.
Qed.

Lemma pretty_N_go_app x s : pretty_N_go x s = pretty_N_go x "" +:+ s.
Proof.
  revert s. induction (N.lt_wf_0 x) as [x _ IH]; intros s.
  destruct (decide (x = 0)%N) as [->|Hx]; [by rewrite !pretty_N_go_0|].
  assert (x `div` 10 < x)%N as Hlt by (apply N.div_lt; lia).
  rewrite (pretty_N_go_step x s), (pretty_N_go_step x "") by lia.
  rewrite (IH _ Hlt (String _ s)), (IH _ Hlt (String _ "")).
  by rewrite string_app_assoc.
Qed.

Lemma pretty_N_char_digit x :
  (x < 10)%N →
  Py.is_digit (pretty_N_char x) = true ∧ Py.digit_val (pretty_N_char x) = Z.of_N x.
Proof.
  intros Hx. assert (x ∈ [0; 1; 2; 3; 4; 5; 6; 7; 8; 9]%N) as Hin.
  { rewrite !elem_of_cons. lia. }
  rewrite !elem_of_cons, elem_of_nil in Hin.
  destruct Hin as [->|[->|[->|[->|[->|[->|[->|[->|[->|[->|[]]]]]]]]]]]; done.
Qed.

(** The digits written for a positive number read back as that number. *)
Lemma digits_pretty_N_go x :
  (0 < x)%N →
  Py.digits 0 false (pretty_N_go x "") = Some (Z.of_N x) ∧
  all_chars Py.is_digit (pretty_N_go x "") = true ∧
  pretty_N_go x "" ≠ "".
Proof.
  induction (N.lt_wf_0 x) as [x _ IH]. intros Hx.
  rewrite pretty_N_go_step by done. rewrite pretty_N_go_app.
  destruct (pretty_N_char_digit (x `mod` 10)) as [Hd Hv];
    [by apply N.mod_lt|].
  pose proof (N.div_mod x 10 ltac:(done)) as Hdm.
  destruct (decide (x `div` 10 = 0)%N) as [Hq|Hq].
  - rewrite Hq, pretty_N_go_0. simpl. rewrite Hd, Hv. split_and!; try done.
    f_equal. lia.
  - destruct (IH (x `div` 10)%N) as (Hread & Hall & Hne);
      [apply N.div_lt; lia|by apply N.neq_0_lt_0|].
    split_and!.
    + rewrite (digits_snoc _ _ _ _ _ Hread Hd), Hv. f_equal. lia.
    + rewrite all_chars_app, Hall. simpl. by rewrite Hd.
    + by destruct (pretty_N_go _ "").
Qed.

Lemma unsigned_digits s :
  all_chars Py.is_digit s = true → s ≠ "" → Py.unsigned s = Py.digits 0 false s.
Proof.
  destruct s as [|c s]; [done|]. simpl.
  intros [Hc _]%andb_true_iff _. by rewrite Hc.
Qed.

Lemma lstrip_id s : all_chars (λ c, negb (Py.is_space c)) s = true → Py.lstrip s = s.
Proof.
  destruct s as [|c s]; [done|]. simpl.
  intros [Hc%negb_true_iff _]%andb_true_iff. by rewrite Hc.
Qed.

Lemma rstrip_id s : all_chars (λ c, negb (Py.is_space c)) s = true → Py.rstrip s = s.
Proof.
  induction s as [|c s IH]; [done|]. simpl.
  intros [Hc%negb_true_iff Hs]%andb_true_iff. rewrite (IH Hs), Hc.
  by destruct s.
Qed.

Lemma is_digit_not_space c : Py.is_digit c = true → negb (Py.is_space c) = true.
Proof. destruct c as [[] [] [] [] [] [] [] []]; vm_compute; done. Qed.

Lemma is_digit_not_sign c :
  Py.is_digit c = true → Ascii.eqb c "-" = false ∧ Ascii.eqb c "+" = false.
Proof. destruct c as [[] [] [] [] [] [] [] []]; vm_compute; done. Qed.

Lemma int_of_digits s :
  all_chars Py.is_digit s = true → s ≠ "" →
  Py.int s = match Py.digits 0 false s with Some z => Ret z | None => Raise ValueError end
  ∧ Py.int ("-" +:+ s) =
      match Py.digits 0 false s with Some z => Ret (- z) | None => Raise ValueError end.
Proof.
  intros Hall Hne.
  pose proof (all_chars_impl _ _ _ is_digit_not_space Hall) as Hsp.
  split; unfold Py.int.
  - rewrite (lstrip_id _ Hsp), (rstrip_id _ Hsp).
    rewrite <-(unsigned_digits _ Hall Hne).
    destruct s as [|c s]; [done|].
    apply andb_true_iff in Hall as [[-> ->]%is_digit_not_sign _]. done.
  - change ("-" +:+ s) with (String "-" s).
    assert (all_chars (λ c, negb (Py.is_space c)) (String "-" s) = true) as Hsp'
      by (change (all_chars ?P (String ?c ?r)) with (P c && all_chars P r);
          by rewrite Hsp).
    rewrite (lstrip_id _ Hsp'), (rstrip_id _ Hsp'). simpl.
    rewrite (unsigned_digits _ Hall Hne). by destruct (Py.digits 0 false s).
Qed.

Lemma pretty_Z_cases z :
  (z = 0 ∧ pretty z = "0") ∨
  (∃ x, (0 < x)%N ∧ z = Z.of_N x ∧ pretty z = pretty_N_go x "") ∨
  (∃ x, (0 < x)%N ∧ z = - Z.of_N x ∧ pretty z = "-" +:+ pretty_N_go x "").
Proof.
  destruct z as [|p|p]; [by left|right; left|right; right];
    exists (N.pos p); split_and!; try done; lia.
Qed.

Lemma int_pretty z : Py.int (pretty z) = Ret z.
Proof.
  destruct (pretty_Z_cases z) as [[-> ->]|[(x & Hx & -> & ->)|(x & Hx & -> & ->)]];
    [done|..];
    destruct (digits_pretty_N_go x Hx) as (Hread & Hall & Hne);
    destruct (int_of_digits _ Hall Hne) as [Hpos Hneg].
  - by rewrite Hpos, Hread.
  - by rewrite Hneg, Hread.
Qed.


End round_trip.

(** ** More on [split] and [replace] *)

Section split_replace.
Implicit Types (s t a b : string) (c d sep : ascii).



(** A split at every separator gives one part more than there are
    separators. *)
Lemma split_length sep s :
  length (Py.split sep None s) = S (count_char sep s).
Proof.
  induction s as [|d s IH]; [done|]. simpl.
  destruct (Ascii.eqb d sep); simpl.
  - by rewrite IH.
  - pose proof (split_nonempty sep None s).
    destruct (Py.split sep None s); [done|]. simpl in *. lia.
Qed.

Lemma replace_char_cons c new d s :
  Py.replace (String c "") new (String d s) =
    (if Ascii.eqb c d then new else String d "") +:+ Py.replace (String c "") new s.
Proof.
  unfold Py.replace. simpl. rewrite andb_true_r. by destruct (Ascii.eqb c d).
Qed.

(** Replacing a one-character pattern works character by character. *)
Lemma replace_char_app c new a b :
  Py.replace (String c "") new (a +:+ b) =
    Py.replace (String c "") new a +:+ Py.replace (String c "") new b.
Proof.
  induction a as [|d a IH]; [done|].
  change (String d a +:+ b) with (String d (a +:+ b)).
  by rewrite !replace_char_cons, IH, string_app_assoc.
Qed.

Lemma replace_char_absent c new s :
  has_char c s = false → Py.replace (String c "") new s = s.
Proof.
  induction s as [|d s IH]; [done|].
  rewrite has_char_cons, orb_false_iff. intros [Hd Hs].
  by rewrite replace_char_cons, Hd, (IH Hs).
Qed.

Lemma has_char_app c a b : has_char c (a +:+ b) = has_char c a || has_char c b.
Proof.
  induction a as [|d a IH]; [done|].
  change (String d a +:+ b) with (String d (a +:+ b)).
  by rewrite !has_char_cons, IH, orb_assoc.
Qed.

(** After the replacement the character is gone, unless the replacement
    text brings it back. *)
Lemma replace_char_gone c new s :
  has_char c new = false → has_char c (Py.replace (String c "") new s) = false.
Proof.
  intros Hnew. induction s as [|d s IH]; [done|].
  rewrite replace_char_cons, has_char_app, IH, orb_false_r.
  destruct (Ascii.eqb c d) eqn:Hd; [done|].
  by rewrite has_char_cons, Hd.
Qed.


End split_replace.

(** ** [to_minutes] *)

(** X1: a number written by [str] reads back through [int] as itself, so
    the hour picked from the options [map(str, hour_list)] is the hour of
    the list. *)
Theorem X1_int_reads_back_str (z : Z) : Py.int (str (VInt z)) = Ret z.
Proof. apply int_pretty. Qed.


(** X3: [to_minutes] raises [ValueError] on every text that does not hold
    exactly one colon. *)
Theorem X3_to_minutes_needs_one_colon (t : string) :
  count_char ":" t ≠ 1%nat → to_minutes t = Raise ValueError.
Proof.
  intros Hcount. unfold to_minutes.
  pose proof (split_length ":" t) as Hlen.
  destruct (Py.split ":" None t) as [|h [|m [|??]]]; try done.
  simpl in Hlen. lia.
Qed.

Lemma X3_to_minutes_needs_one_colon_witness :
  to_minutes "930" = Raise ValueError ∧ to_minutes "9:30:00" = Raise ValueError.
Proof.
  split; apply X3_to_minutes_needs_one_colon; vm_compute; lia.
Defined.

(** ** More on the parser *)

(** X4: the parser does not see spaces: a space put anywhere in the text
    leaves the outcome as it was, and so does removing them all
    beforehand. *)
Theorem X4_parse_ignores_spaces (a b : string) :
  parse (a +:+ " " +:+ b) = parse (a +:+ b) ∧
  parse (Py.replace " " "" a) = parse a.
Proof.
  assert (∀ s t, Py.replace " " "" s = Py.replace " " "" t → parse s = parse t)
    as Hsame.
  { intros s t Heq. rewrite !parse_unfold. cbv zeta. by rewrite Heq. }
  split; apply Hsame.
  - rewrite !replace_char_app. by rewrite (replace_char_cons " " "" " " "").
  - apply replace_char_absent. by apply replace_char_gone.
Qed.

(** X5: the parser returns a parsed range exactly when the text without
    its spaces splits at its first dash into two sides that [to_minutes]
    reads and the duration left by the corrections is 300 at most; the
    range is then the start, the corrected end and the flag of the
    ladder. *)
Theorem X5_success_exactly (s : string) (o : outcome) :
  (parse s = Ret o ∧ error_message o = "") ↔
  (∃ a b start end_,
     Py.split "-" (Some 1%nat) (Py.replace " " "" s) = [a; b] ∧
     to_minutes a = Ret start ∧ to_minutes b = Ret end_ ∧
     (auto_fix start end_).1 - start ≤ 300 ∧
     o = (Some start, Some (auto_fix start end_).1, (auto_fix start end_).2, "")).
Proof.
  split.
  - intros [Hrun Hmsg].
    destruct (parse_cases s) as [[_ H]|[(_ & _ & H)|[(_ & _ & H)|H]]];
      try (rewrite H in Hrun; injection Hrun as <-; discriminate Hmsg).
    destruct H as (a & b & start & end_ & Hsplit & _ & Ha & Hb & H).
    rewrite H in Hrun. injection Hrun as <-.
    exists a, b, start, end_. split_and!; try done.
    + destruct (settle_message start end_) as [[_ Hd]|[Hm _]]; [done|].
      rewrite Hm in Hmsg. by apply duration_message_nonempty in Hmsg.
    + destruct (settle_message start end_) as [[_ Hd]|[Hm _]].
      * by apply settle_within_cap.
      * rewrite Hm in Hmsg. by apply duration_message_nonempty in Hmsg.
  - intros (a & b & start & end_ & Hsplit & Ha & Hb & Hd & ->). split; [|done].
    rewrite (parse_reads s start end_) by (by exists a, b).
    by rewrite settle_within_cap.
Qed.

Lemma X5_success_exactly_witness :
  parse "11:00 - 1:00" = Ret (Some 660, Some 780, true, "") ∧
  error_message (Some 660, Some 780, true, "") = "".
Proof.
  apply (X5_success_exactly "11:00 - 1:00").
  exists "11:00", "1:00", 660, 60. split_and!; try reflexivity.
  vm_compute. discriminate.
Defined.

(** The kinds of rejection. *)
Lemma rejection_kinds (v : value) (o : outcome) :
  parse_interval_smart v = Ret o → error_message o ≠ "" →
  fixed o = false ∧
  ((start_min o = None ∧ end_min o = None ∧
    error_message o ∈ ["Non-string interval"; "Missing dash";
                       "Non-time entry (ONLINE/TBA)"; "Bad time format"]) ∨
   (∃ start end_,
      o = (Some start, Some end_, false, duration_message (end_ - start)) ∧
      0 ≤ start ∧ 300 < end_ - start)).
Proof.
  destruct v as [s| | |];
    try (intros [= <-] _; split; [done|left; split_and!; [done..|set_solver]]).
  fold (parse s).
  destruct (parse_cases s) as [[_ H]|[(_ & _ & H)|[(_ & _ & H)|H]]];
    try (rewrite H; intros [= <-] _; split; [done|left; split_and!; [done..|set_solver]]).
  destruct H as (a & b & start & end_ & _ & Ha & Hta & _ & ->).
  intros [= <-] Hmsg.
  destruct (settle_message start end_) as [[Hm _]|[_ Hd]]; [done|].
  rewrite settle_over_cap by done. split; [done|right].
  eexists _, _. split_and!; [done| |done]. by eapply to_minutes_nonneg.
Qed.


(** X6: every rejection carries a false flag.  It carries no minute
    values under one of the four fixed messages, or it carries both, a
    start that is not negative and the duration message of a duration
    above 300. *)
Theorem X6_rejections (v : value) (o : outcome) :
  parse_interval_smart v = Ret o → error_message o ≠ "" →
  fixed o = false ∧
  ((start_min o = None ∧ end_min o = None ∧
    error_message o ∈ ["Non-string interval"; "Missing dash";
                       "Non-time entry (ONLINE/TBA)"; "Bad time format"]) ∨
   (∃ start end_,
      o = (Some start, Some end_, false, duration_message (end_ - start)) ∧
      0 ≤ start ∧ 300 < end_ - start)).
Proof. apply rejection_kinds. Qed.

Lemma X6_rejections_witness :
  fixed (Some 600, Some 960, false, duration_message 360) = false ∧
  ((start_min (Some 600, Some 960, false, duration_message 360) = None ∧
    end_min (Some 600, Some 960, false, duration_message 360) = None ∧
    error_message (Some 600, Some 960, false, duration_message 360)
      ∈ ["Non-string interval"; "Missing dash";
         "Non-time entry (ONLINE/TBA)"; "Bad time format"]) ∨
   (∃ start end_,
      (Some 600, Some 960, false, duration_message 360)
        = (Some start, Some end_, false, duration_message (end_ - start)) ∧
      0 ≤ start ∧ 300 < end_ - start)).
Proof.
  apply (X6_rejections (VStr "10:00-4:00")); [reflexivity|vm_compute; discriminate].
Defined.



(** ** More on the rows of the two outputs *)

Section output_rows.
Implicit Types (df valid invalid : DataFrame) (r : gmap string value) (c : string).

(** Where the rows of the two outputs come from. *)
Lemma output_rows df valid invalid :
  (preprocess_data df).2 = Ret (valid, invalid) →
  (∀ r, r ∈ rows valid →
        ∃ r0, r0 ∈ rows df ∧ accepted r0 = true ∧ r = with_hour (normalised r0)) ∧
  (∀ r, r ∈ rows invalid →
        ∃ r0, r0 ∈ rows df ∧ accepted r0 = false ∧ r = normalised r0).
Proof.
  intros Hrun. destruct (decide (missing_cols df = [])) as [Hnone|Hsome].
  - apply missing_cols_nil in Hnone.
    destruct (preprocess_data_rows df Hnone) as (v & i & Hrun' & Hv & Hi).
    rewrite Hrun' in Hrun. injection Hrun as <- <-. rewrite Hv, Hi.
    split; intros r (r0 & -> & Hr0)%list_elem_of_fmap;
      apply list_elem_of_In, filter_In in Hr0 as [Hin Hacc];
      exists r0; split_and!; try done.
    + by apply list_elem_of_In.
    + by apply list_elem_of_In.
    + by apply negb_true_iff.
  - rewrite (preprocess_data_missing df Hsome) in Hrun.
    injection Hrun as <- <-. split; intros r Hr; by apply elem_of_nil in Hr.
Qed.

Lemma with_hour_cell r c : c ≠ "Start_Hour" → cell (with_hour r) c = cell r c.
Proof.
  intros Hc. unfold with_hour. destruct (cell r "Start_Min"); try done.
  unfold cell. by rewrite lookup_insert_ne.
Qed.

Lemma normalised_auto_fixed r :
  cell (normalised r) "AutoFixed" = VBool (fixed (outcome_of r)).
Proof. unfold normalised, with_parsed, cell. by simplify_map_eq. Qed.

Lemma normalised_duration r :
  cell (normalised r) "Duration" =
    minus (of_option (end_min (outcome_of r))) (of_option (start_min (outcome_of r))).
Proof. unfold normalised, with_parsed, cell. by simplify_map_eq. Qed.



Lemma cleaned_class_times r :
  cell (cleaned r) "Class_Times" = clean_class_times (cell r "Class_Times").
Proof. unfold cleaned, cell. by simplify_map_eq. Qed.


End output_rows.

(** X8: every row of the valid output holds an empty error message, an
    integer start that is not negative, an integer end, the duration
    [End_Min - Start_Min], which is 300 at most, and a boolean flag. *)
Theorem X8_valid_row_cells (df valid invalid : DataFrame) (r : gmap string value) :
  (preprocess_data df).2 = Ret (valid, invalid) → r ∈ rows valid →
  ∃ start end_ flag,
    cell r "ErrorMessage" = VStr "" ∧
    cell r "Start_Min" = VInt start ∧ cell r "End_Min" = VInt end_ ∧
    cell r "Duration" = VInt (end_ - start) ∧ cell r "AutoFixed" = VBool flag ∧
    0 ≤ start ∧ end_ - start ≤ 300.
Proof.
  intros Hrun Hr.
  destruct (output_rows _ _ _ Hrun) as [Hvalid _].
  destruct (Hvalid r Hr) as (r0 & _ & Hacc & ->).
  destruct (accepted_range r0 Hacc) as (start & end_ & Ho & Hstart & Hd).
  exists start, (auto_fix start end_).1, (auto_fix start end_).2.
  rewrite !with_hour_cell by done.
  rewrite normalised_error_message, normalised_start_min, normalised_end_min,
    normalised_duration, normalised_auto_fixed, Ho.
  done.
Qed.

Lemma X8_valid_row_cells_witness :
  ∃ start end_ flag,
    cell (with_hour (normalised (<["Class_Times" := VStr "11.00 – 1.00"]> ∅)))
      "ErrorMessage" = VStr "" ∧
    cell (with_hour (normalised (<["Class_Times" := VStr "11.00 – 1.00"]> ∅)))
      "Start_Min" = VInt start ∧
    cell (with_hour (normalised (<["Class_Times" := VStr "11.00 – 1.00"]> ∅)))
      "End_Min" = VInt end_ ∧
    cell (with_hour (normalised (<["Class_Times" := VStr "11.00 – 1.00"]> ∅)))
      "Duration" = VInt (end_ - start) ∧
    cell (with_hour (normalised (<["Class_Times" := VStr "11.00 – 1.00"]> ∅)))
      "AutoFixed" = VBool flag ∧
    0 ≤ start ∧ end_ - start ≤ 300.
Proof.
  eapply (X8_valid_row_cells
            {| columns := required_cols;
               rows := [<["Class_Times" := VStr "11.00 – 1.00"]> ∅] |}).
  - vm_compute. reflexivity.
  - vm_compute. left.
Defined.



(** ** The cleaned columns *)

Section cleaning.
Implicit Types (s t a b : string) (c d : ascii) (v : value).

Lemma all_chars_cons (P : ascii → bool) c s :
  all_chars P (String c s) = P c && all_chars P s.
Proof. done. Qed.







(** A pattern that begins with a byte above 127 leaves 7-bit text as it
    is. *)
Lemma replace_ascii_prefix c old new a rest :
  is_ascii c = false → all_chars is_ascii a = true →
  Py.replace_from (String c old) new 0 (a +:+ rest) =
    a +:+ Py.replace_from (String c old) new 0 rest.
Proof.
  intros Hc. induction a as [|d a IH]; [done|].
  rewrite all_chars_cons. intros [Hd Ha]%andb_true_iff.
  change (String d a +:+ rest) with (String d (a +:+ rest)).
  assert (Ascii.eqb c d = false) as Hcd
    by (apply Ascii.eqb_neq; intros ->; congruence).
  simpl. rewrite Hcd. simpl. by rewrite (IH Ha).
Qed.

Lemma replace_ascii c old new a :
  is_ascii c = false → all_chars is_ascii a = true →
  Py.replace (String c old) new a = a.
Proof.
  intros Hc Ha. unfold Py.replace.
  assert (∀ s, s +:+ "" = s) as Hnil
    by (intros s; induction s as [|e s IH]; [done|];
        change (String e (s +:+ "") = String e s); by rewrite IH).
  rewrite <-(Hnil a) at 1. rewrite replace_ascii_prefix by done.
  by rewrite Hnil.
Qed.

(** The two dash variants between 7-bit sides become the plain dash. *)
Lemma dashes_become_plain a b :
  all_chars is_ascii a = true → all_chars is_ascii b = true →
  Py.replace "—" "-" (Py.replace "–" "-" (a +:+ "–" +:+ b)) = a +:+ "-" +:+ b ∧
  Py.replace "—" "-" (Py.replace "–" "-" (a +:+ "—" +:+ b)) = a +:+ "-" +:+ b ∧
  Py.replace "—" "-" (Py.replace "–" "-" (a +:+ "-" +:+ b)) = a +:+ "-" +:+ b.
Proof.
  intros Ha Hb.
  assert (all_chars is_ascii (a +:+ "-" +:+ b) = true) as Hab
    by (change (a +:+ "-" +:+ b) with (a +:+ String "-" b);
        by rewrite all_chars_app, all_chars_cons, Ha, Hb).
  assert (Py.replace "–" "-" b = b) as Hen by (by apply replace_ascii).
  assert (Py.replace "—" "-" b = b) as Hem by (by apply replace_ascii).
  assert (Py.replace "—" "-" (a +:+ "-" +:+ b) = a +:+ "-" +:+ b) as Hplain
    by (by apply replace_ascii).
  unfold Py.replace in *. split_and!.
  - rewrite (replace_ascii_prefix _ _ "-" a) by done.
    simpl. change ("" +:+ b) with b. by rewrite Hen.
  - rewrite (replace_ascii_prefix _ _ "-" a) by done.
    simpl. change ("" +:+ b) with b. rewrite Hen.
    rewrite (replace_ascii_prefix _ _ "-" a) by done.
    simpl. change ("" +:+ b) with b. by rewrite Hem.
  - rewrite <-Hplain at 2. f_equal. by apply (replace_ascii _ _ "-").
Qed.

End cleaning.





(** X12: between two sides of 7-bit characters an en dash, an em dash
    and the plain dash are cleaned to the same interval text, so the rows
    get the same outcome. *)
Theorem X12_dash_variants (a b : string) (r : gmap string value) :
  all_chars is_ascii a = true → all_chars is_ascii b = true →
  clean_class_times (VStr (a +:+ "–" +:+ b)) = clean_class_times (VStr (a +:+ "-" +:+ b)) ∧
  clean_class_times (VStr (a +:+ "—" +:+ b)) = clean_class_times (VStr (a +:+ "-" +:+ b)) ∧
  outcome_of (<["Class_Times" := VStr (a +:+ "–" +:+ b)]> r)
    = outcome_of (<["Class_Times" := VStr (a +:+ "-" +:+ b)]> r) ∧
  outcome_of (<["Class_Times" := VStr (a +:+ "—" +:+ b)]> r)
    = outcome_of (<["Class_Times" := VStr (a +:+ "-" +:+ b)]> r).
Proof.
  intros Ha Hb. destruct (dashes_become_plain a b Ha Hb) as (Hen & Hem & Hplain).
  assert (clean_class_times (VStr (a +:+ "–" +:+ b))
          = clean_class_times (VStr (a +:+ "-" +:+ b))) as Hen'
    by (unfold clean_class_times; simpl str; by rewrite Hen, Hplain).
  assert (clean_class_times (VStr (a +:+ "—" +:+ b))
          = clean_class_times (VStr (a +:+ "-" +:+ b))) as Hem'
    by (unfold clean_class_times; simpl str; by rewrite Hem, Hplain).
  assert (∀ s, cell (<["Class_Times" := VStr s]> r) "Class_Times" = VStr s) as Hcell
    by (intros s; unfold cell; by rewrite lookup_insert_eq).
  split_and!; try done; unfold outcome_of;
    rewrite !cleaned_class_times, !Hcell; by rewrite ?Hen', ?Hem'.
Qed.

Lemma X12_dash_variants_witness :
  clean_class_times (VStr "9:00–10:30") = clean_class_times (VStr "9:00-10:30") ∧
  clean_class_times (VStr "9:00—10:30") = clean_class_times (VStr "9:00-10:30") ∧
  outcome_of (<["Class_Times" := VStr "9:00–10:30"]> ∅)
    = outcome_of (<["Class_Times" := VStr "9:00-10:30"]> ∅) ∧
  outcome_of (<["Class_Times" := VStr "9:00—10:30"]> ∅)
    = outcome_of (<["Class_Times" := VStr "9:00-10:30"]> ∅).
Proof.
  apply (X12_dash_variants "9:00" "10:30" ∅); reflexivity.
Defined.

(** ** The filter block of [main] *)

Section filters.
Implicit Types (df valid invalid : DataFrame) (r : gmap string value) (c : string).

Lemma filter_filter {A} (p q : A → bool) (l : list A) :
  List.filter p (List.filter q l) = List.filter (λ x, q x && p x) l.
Proof.
  induction l as [|x l IH]; [done|]. simpl.
  destruct (q x); simpl; [|done]. by destruct (p x); rewrite IH.
Qed.

Lemma filter_true {A} (l : list A) : List.filter (λ _, true) l = l.
Proof. induction l as [|x l IH]; [done|]. simpl. by rewrite IH. Qed.

Lemma select_all (p : gmap string value → bool) df :
  (∀ r, p r = true) → select p df = df.
Proof.
  intros Hp. unfold select.
  rewrite (filter_ext_in p (λ _, true)) by done.
  rewrite filter_true. by destruct df.
Qed.

Lemma getitem_present c df :
  c ∈ columns df → getitem c df = Ret ((λ r, cell r c) <$> rows df).
Proof. intros Hc. unfold getitem. by rewrite decide_True. Qed.

Lemma getitem_absent c df : c ∉ columns df → getitem c df = Raise (KeyError c).
Proof. intros Hc. unfold getitem. by rewrite decide_False. Qed.

Lemma where_eq_present c v df :
  c ∈ columns df →
  where_eq c (Ret v) df = Ret (select (λ r, py_eq (cell r c) v) df).
Proof. intros Hc. unfold where_eq. by rewrite getitem_present. Qed.

Lemma hour_choice_all h : str (VInt h) ≠ "All".
Proof.
  intros Heq. pose proof (int_pretty h) as Hint.
  simpl in Heq. rewrite Heq in Hint. discriminate Hint.
Qed.

(** The frame the filter block returns on a frame that has the three
    columns it looks up. *)
Lemma filter_block_rows df hall day hour :
  "Hall" ∈ columns df → "Days" ∈ columns df → "Start_Hour" ∈ columns df →
  filter_block hall day (hour_choice hour) df =
    Ret {| columns := columns df;
           rows := List.filter (chosen hall day hour) (rows df) |}.
Proof.
  intros Hhall Hdays Hhour. unfold filter_block.
  set (p1 := λ r, py_eq hall (VStr "All") || py_eq (cell r "Hall") hall).
  set (p2 := λ r, py_eq day (VStr "All") || py_eq (cell r "Days") day).
  set (p3 := λ r, match hour with
                  | None => true
                  | Some h => py_eq (cell r "Start_Hour") (VInt h)
                  end).
  assert ((if negb (py_eq hall (VStr "All"))
           then where_eq "Hall" (mret hall) df else mret df)
          = Ret (select p1 df)) as ->.
  { destruct (py_eq hall (VStr "All")) eqn:Hall; simpl.
    - by rewrite select_all.
    - by rewrite where_eq_present. }
  rewrite res_bind_ret.
  assert ((if negb (py_eq day (VStr "All"))
           then where_eq "Days" (mret day) (select p1 df) else mret (select p1 df))
          = Ret (select p2 (select p1 df))) as ->.
  { destruct (py_eq day (VStr "All")) eqn:Hall; simpl.
    - by rewrite (select_all p2).
    - by rewrite where_eq_present. }
  rewrite res_bind_ret.
  assert ((if negb (bool_decide (hour_choice hour = "All"))
           then where_eq "Start_Hour"
                  (h ← Py.int (hour_choice hour); mret (VInt h))
                  (select p2 (select p1 df))
           else mret (select p2 (select p1 df)))
          = Ret (select p3 (select p2 (select p1 df)))) as ->.
  { destruct hour as [h|]; simpl hour_choice.
    - rewrite bool_decide_eq_false_2 by apply (hour_choice_all h). simpl negb.
      rewrite int_pretty, res_bind_ret. by rewrite where_eq_present.
    - simpl. by rewrite (select_all p3). }
  rewrite res_bind_ret. unfold select. simpl. rewrite !filter_filter.
  rewrite (filter_ext_in _ (chosen hall day hour)); [done|].
  intros r. unfold chosen, p1, p2, p3. by rewrite andb_assoc.
Qed.

(** The two frames [preprocess_data] returns on a table that has the
    required columns, labels included. *)
Lemma preprocess_data_frames df :
  required_cols ⊆ columns df →
  preprocess_data df =
    ([], Ret ({| columns := out_cols df ++ ["Start_Hour"];
                 rows := (with_hour ∘ normalised) <$> List.filter accepted (rows df) |},
              {| columns := out_cols df;
                 rows := normalised <$>
                           List.filter (λ r, negb (accepted r)) (rows df) |})).
Proof.
  intros Hsub. unfold preprocess_data. rewrite (missing_none _ Hsub). simpl.
  rewrite <-list_fmap_compose.
  rewrite (mapM_ret _ _ (λ r, with_parsed (cleaned r) (outcome_of r))).
  2: { apply Forall_forall. intros r _. apply parse_row_normal. }
  rewrite res_bind_ret. rewrite <-list_fmap_compose.
  change (_ ∘ _ <$> rows df) with (normalised <$> rows df).
  rewrite filter_fmap.
  rewrite (filter_ext_in _ accepted) by apply is_valid_normalised.
  rewrite (mapM_ret _ _ (with_hour ∘ normalised)).
  2: { apply Forall_forall. intros r [_ Hr]%list_elem_of_In%filter_In.
       by apply add_start_hour_normal. }
  rewrite res_bind_ret. unfold select, assign. cbn [rows columns].
  rewrite <-list_fmap_compose.
  change (_ ∘ _ <$> rows df) with (normalised <$> rows df).
  rewrite filter_fmap.
  rewrite (filter_ext_in (λ r, is_error (normalised r)) (λ r, negb (accepted r)))
    by apply is_error_normalised.
  done.
Qed.

Lemma assign_columns c c' (f : gmap string value → value) df :
  c ∈ columns df → c ∈ columns (assign c' f df).
Proof.
  intros Hc. unfold assign. simpl. case_decide; [done|].
  apply elem_of_app. by left.
Qed.

Lemma out_cols_keeps c df : c ∈ columns df → c ∈ out_cols df.
Proof.
  intros Hc. unfold out_cols. cbv zeta.
  apply assign_columns. cbn [columns]. apply elem_of_app. left.
  by do 2 apply assign_columns.
Qed.

Lemma out_cols_error_message df : "ErrorMessage" ∈ out_cols df.
Proof.
  unfold out_cols. cbv zeta. apply assign_columns. cbn [columns].
  apply elem_of_app. right. unfold parsed_cols.
  rewrite !elem_of_cons. tauto.
Qed.

End filters.

(** X13: on a frame that has the columns [Hall], [Days] and
    [Start_Hour], the filter block returns the rows that match what was
    chosen, in their order and with the same column labels.  A choice of
    ["All"] matches every row, also when a hall or a day is itself
    called ["All"]; an hour written by [str] matches the rows whose start
    hour is that number. *)
Theorem X13_filter_block_keeps_chosen_rows
    (df : DataFrame) (hall day : value) (hour : option Z) :
  "Hall" ∈ columns df → "Days" ∈ columns df → "Start_Hour" ∈ columns df →
  ∃ out,
    filter_block hall day (hour_choice hour) df = Ret out ∧
    columns out = columns df ∧
    rows out = List.filter (chosen hall day hour) (rows df) ∧
    (∀ r, r ∈ rows out ↔ r ∈ rows df ∧ chosen hall day hour r = true) ∧
    (hall = VStr "All" → day = VStr "All" → hour = None → out = df).
Proof.
  intros Hhall Hdays Hhour. eexists. split; [by apply filter_block_rows|].
  simpl. split_and!; try done.
  - intros r. by rewrite !list_elem_of_In, filter_In.
  - intros -> -> ->. rewrite (filter_ext_in _ (λ _, true)) by done.
    rewrite filter_true. by destruct df.
Qed.

Lemma X13_filter_block_keeps_chosen_rows_witness :
  let r1 := <["Hall" := VStr "H1"]> (<["Days" := VStr "MWF"]>
              (<["Start_Hour" := VInt 9]> ∅)) in
  let r2 := <["Hall" := VStr "H2"]> (<["Days" := VStr "MWF"]>
              (<["Start_Hour" := VInt 13]> ∅)) in
  let df := {| columns := ["Hall"; "Days"; "Start_Hour"]; rows := [r1; r2] |} in
  ∃ out,
    filter_block (VStr "All") (VStr "MWF") (hour_choice (Some 13)) df = Ret out ∧
    rows out = [r2].
Proof.
  intros r1 r2 df.
  destruct (X13_filter_block_keeps_chosen_rows df (VStr "All") (VStr "MWF") (Some 13))
    as (out & Hrun & _ & Hrows & _); try compute_done.
  exists out. split; [exact Hrun|]. rewrite Hrows. vm_compute. reflexivity.
Defined.

(** X14: on a table that has the required columns, the frames of
    [preprocess_data] have the columns [main] looks up afterwards: the
    filter block returns on [df_valid] for every choice, with the rows
    that match it, and the four columns of the error listing are columns
    of [df_errors]. *)
Theorem X14_main_lookups_succeed (df valid invalid : DataFrame) :
  missing_cols df = [] →
  (preprocess_data df).2 = Ret (valid, invalid) →
  (∀ hall day hour,
     filter_block hall day (hour_choice hour) valid =
       Ret {| columns := columns valid;
              rows := List.filter (chosen hall day hour) (rows valid) |}) ∧
  (∀ c, c ∈ ["Class_Times"; "Days"; "Hall"; "ErrorMessage"] →
        getitem c invalid = Ret ((λ r, cell r c) <$> rows invalid)).
Proof.
  intros Hsub%missing_cols_nil Hrun.
  rewrite (preprocess_data_frames df Hsub) in Hrun. injection Hrun as <- <-.
  assert (∀ c, c ∈ required_cols → c ∈ out_cols df) as Hreq
    by (intros c Hc; by apply out_cols_keeps, Hsub).
  split.
  - intros hall day hour. apply filter_block_rows; cbn [columns];
      apply elem_of_app; [left|left|right].
    + apply Hreq. unfold required_cols. rewrite !elem_of_cons. tauto.
    + apply Hreq. unfold required_cols. rewrite !elem_of_cons. tauto.
    + by apply list_elem_of_singleton.
  - intros c Hc. apply getitem_present. cbn [columns].
    rewrite !elem_of_cons, elem_of_nil in Hc.
    destruct Hc as [->|[->|[->|[->|[]]]]];
      try (apply Hreq; unfold required_cols; rewrite !elem_of_cons; tauto).
    apply out_cols_error_message.
Qed.

Lemma X14_main_lookups_succeed_witness :
  ∃ valid invalid,
    (preprocess_data (table [("MWF", "9:00-10:30", "H1"); ("TTh", "TBA", "H2")])).2
      = Ret (valid, invalid) ∧
    filter_block (VStr "H1") (VStr "All") (hour_choice (Some 9)) valid =
      Ret {| columns := columns valid;
             rows := List.filter (chosen (VStr "H1") (VStr "All") (Some 9))
                       (rows valid) |} ∧
    getitem "ErrorMessage" invalid = Ret [VStr "Missing dash"].
Proof.
  eexists _, _. split; [vm_compute; reflexivity|].
  edestruct (X14_main_lookups_succeed
               (table [("MWF", "9:00-10:30", "H1"); ("TTh", "TBA", "H2")]))
    as [Hfilter Hget]; [vm_compute; reflexivity..|].
  split; [apply Hfilter|].
  rewrite Hget by (rewrite !elem_of_cons; tauto). vm_compute. reflexivity.
Defined.

(** X15: when a required column is missing, the two frames
    [preprocess_data] returns have no rows and no column label, so every
    column lookup on them raises [KeyError]; [main] makes such a lookup,
    [df_valid["Hall"]], right after the call. *)
Theorem X15_lookup_after_missing_column_raises
    (df valid invalid : DataFrame) (c : string) :
  missing_cols df ≠ [] →
  (preprocess_data df).2 = Ret (valid, invalid) →
  len valid = 0%nat ∧ len invalid = 0%nat ∧
  getitem c valid = Raise (KeyError c) ∧ getitem c invalid = Raise (KeyError c).
Proof.
  intros Hsome Hrun. rewrite (preprocess_data_missing df Hsome) in Hrun.
  injection Hrun as <- <-. split_and!; try done;
    apply getitem_absent, not_elem_of_nil.
Qed.

Lemma X15_lookup_after_missing_column_raises_witness :
  ∃ valid invalid,
    (preprocess_data {| columns := ["Days"; "Class_Times"]; rows := [] |}).2
      = Ret (valid, invalid) ∧
    getitem "Hall" valid = Raise (KeyError "Hall").
Proof.
  eexists _, _. split; [vm_compute; reflexivity|].
  eapply (X15_lookup_after_missing_column_raises
            {| columns := ["Days"; "Class_Times"]; rows := [] |});
    [vm_compute; discriminate|vm_compute; reflexivity].
Defined.
